(** * DefiBrain AI backend: signal fusion, signal store and indicator engine

    A shallow embedding of the rule-based core of the backend:

    - [utils/technical_indicators.py]: the column arithmetic behind the
      pivot points, the MACD crossover flags and the Chaikin Money Flow,
      and the control flow of [add_all_indicators];
    - [services/real_time_analyzer.py]: the price-movement analysis, the
      technical signal rules, the composite signal fuser, the signal
      store and the news sentiment aggregator.

    Numbers.  A Python [float] is modelled by an exact rational ([Q]);
    rounding is not modelled.  A cell of a numeric column is a [cell]:
    [Some q] for a finite value and [None] for a non-finite one (numpy's
    [nan], which is also what pandas prints as null).  The news
    aggregator takes a square root ([np.std]) and is therefore stated
    over the real numbers.

    Libraries.  The functions of TA-Lib and scipy and the rolling sum of
    pandas are parameters of the models that call them; a call that
    raises returns [None].

    Time.  A [datetime] is an integer number of microseconds; every
    operation reads the wall clock once, and that reading is the [now]
    argument of its model. *)

From Stdlib Require Import ZArith QArith Qabs Qminmax Reals Psatz.
From Stdlib Require Import List String Ascii Bool.
From stdpp Require Import gmap strings.
Import ListNotations.

Local Open Scope Z_scope.

(** ** Python built-ins on floats *)

(** [a < b] on floats. *)
Definition Qltb (a b : Q) : bool := negb (Qle_bool b a).

(** [min(a, b)]: the first argument wins unless the second is strictly
    smaller. *)
Definition py_min (a b : Q) : Q := if Qltb b a then b else a.

(** [max(a, b)]: the first argument wins unless the second is strictly
    larger. *)
Definition py_max (a b : Q) : Q := if Qltb a b then b else a.

(** [sum(xs)]: a left fold that starts from [0]. *)
Definition py_sum (xs : list Q) : Q := fold_left Qplus xs 0%Q.

(** ** Dates *)

Definition datetime := Z.

(** [timedelta(hours=h)] in microseconds. *)
Definition timedelta_hours (h : Z) : Z := h * 3600000000.

(** ** Cells and columns ([numpy] arrays, [pandas] series) *)

Definition cell := option Q.

Definition nan : cell := None.

Definition cell_lift2 (f : Q -> Q -> Q) (a b : cell) : cell :=
  match a, b with
  | Some x, Some y => Some (f x y)
  | _, _ => nan
  end.

Definition cell_add : cell -> cell -> cell := cell_lift2 Qplus.
Definition cell_sub : cell -> cell -> cell := cell_lift2 Qminus.
Definition cell_mul : cell -> cell -> cell := cell_lift2 Qmult.

(** Float division never raises in numpy: a zero divisor gives a
    non-finite cell (and a warning). *)
Definition cell_div (a b : cell) : cell :=
  match a, b with
  | Some x, Some y => if Qeq_bool y 0 then nan else Some (x / y)%Q
  | _, _ => nan
  end.

(** Comparisons: any comparison with [nan] is false. *)
Definition cell_cmp (r : Q -> Q -> bool) (a b : cell) : bool :=
  match a, b with
  | Some x, Some y => r x y
  | _, _ => false
  end.

Definition cell_lt : cell -> cell -> bool := cell_cmp Qltb.
Definition cell_gt : cell -> cell -> bool := cell_cmp (fun x y => Qltb y x).
Definition cell_le : cell -> cell -> bool := cell_cmp Qle_bool.
Definition cell_ge : cell -> cell -> bool := cell_cmp (fun x y => Qle_bool y x).
Definition cell_eq : cell -> cell -> bool := cell_cmp Qeq_bool.

Definition column := list cell.

(** Element-wise binary operation on two arrays of one frame (equal
    lengths). *)
Definition zip_with {A B C} (f : A -> B -> C) (xs : list A) (ys : list B)
  : list C :=
  List.map (fun p => f (fst p) (snd p)) (List.combine xs ys).

(** Scalar on the left: [k * xs], [k - xs]... *)
Definition scalar_l (f : cell -> cell -> cell) (k : Q) (xs : column) : column :=
  List.map (f (Some k)) xs.

(** Scalar on the right: [xs / k]. *)
Definition scalar_r (f : cell -> cell -> cell) (xs : column) (k : Q) : column :=
  List.map (fun x => f x (Some k)) xs.

(** [np.roll(xs, 1)]: a circular shift, the last element comes first. *)
Definition np_roll1 {A} (xs : list A) : list A :=
  match xs with
  | [] => []
  | x :: _ => List.last xs x :: List.removelast xs
  end.

(** [series.shift(1)]: the first row becomes [nan], the last one is
    dropped. *)
Definition shift1 (xs : column) : column :=
  match xs with
  | [] => []
  | _ :: _ => nan :: List.removelast xs
  end.

(** An element-wise operation on two one-dimensional arrays of any
    length: arrays of one length are combined cell by cell, an array of
    length 1 is stretched over the other one, and every other pair of
    shapes is the [ValueError] "operands could not be broadcast together"
    ([None]). *)
Definition np_broadcast {A B C} (f : A -> B -> C) (xs : list A) (ys : list B)
  : option (list C) :=
  if (List.length xs =? List.length ys)%nat then Some (zip_with f xs ys)
  else
    match xs, ys with
    | [x], _ => Some (List.map (f x) ys)
    | _, [y] => Some (List.map (fun x => f x y) xs)
    | _, _ => None
    end.

(** [np.where(cond, k, xs)] with a scalar in the true branch. *)
Definition np_where (cond : list bool) (k : Q) (xs : column) : option column :=
  np_broadcast (fun (c : bool) x => if c then Some k else x) cond xs.

(** [np.full_like(xs, np.nan)] *)
Definition np_full_like_nan (xs : column) : column :=
  List.repeat nan (List.length xs).

(** [a / b] on two series with the default index: the rows are matched
    by position, and a row that only one of the two has is null. *)
Fixpoint series_div (a b : column) : column :=
  match a, b with
  | x :: a', y :: b' => cell_div x y :: series_div a' b'
  | [], _ => List.map (fun _ => nan) b
  | _, [] => List.map (fun _ => nan) a
  end.

(** The sum of a window; one [nan] makes it [nan]. *)
Definition window_sum (w : column) : cell :=
  fold_left cell_add w (Some 0%Q).

(** The window of [n] rows that ends at row [i] (inclusive). *)
Definition window (n i : nat) (xs : column) : column :=
  List.firstn n (List.skipn (S i - n) xs).

(** The sums of the windows of [n] rows, null until [n] rows are there:
    what [pd.Series(xs).rolling(n).sum()] returns when no partial sum is
    rounded.  pandas keeps one running sum in binary64, so on other data
    its result may differ from these sums in the last digits. *)
Definition rolling_sum (n : nat) (xs : column) : column :=
  List.map (fun i => if (S i <? n)%nat then nan else window_sum (window n i xs))
           (List.seq 0 (List.length xs)).

(** The stand-in for the pandas call in the scenarios, whose data are
    small integers and dyadic fractions. *)
Definition exact_rolling_sum (n : nat) (xs : column) : option column :=
  Some (rolling_sum n xs).

(** ** technical_indicators.py: the helpers written in this repository *)

(** [_calculate_pivot_points(high, low, close)]: the seven level columns,
    in the order of the returned dict. *)
Definition _calculate_pivot_points (high low close : column)
  : list (string * column) :=
  let prev_high := np_roll1 high in
  let prev_low := np_roll1 low in
  let prev_close := np_roll1 close in
  let pivot :=
    scalar_r cell_div
      (zip_with cell_add (zip_with cell_add prev_high prev_low) prev_close) 3 in
  let r1 := zip_with cell_sub (scalar_l cell_mul 2 pivot) prev_low in
  let s1 := zip_with cell_sub (scalar_l cell_mul 2 pivot) prev_high in
  let r2 := zip_with cell_add pivot (zip_with cell_sub prev_high prev_low) in
  let s2 := zip_with cell_sub pivot (zip_with cell_sub prev_high prev_low) in
  let r3 :=
    zip_with cell_add prev_high
      (scalar_l cell_mul 2 (zip_with cell_sub pivot prev_low)) in
  let s3 :=
    zip_with cell_sub prev_low
      (scalar_l cell_mul 2 (zip_with cell_sub prev_high pivot)) in
  [ ("pivot", pivot);
    ("resistance_1", r1); ("support_1", s1);
    ("resistance_2", r2); ("support_2", s2);
    ("resistance_3", r3); ("support_3", s3) ]%string.

(** [d.get(key)] on a dict given by its items. *)
Fixpoint dict_get {V} (key : string) (d : list (string * V)) : option V :=
  match d with
  | [] => None
  | (k, v) :: rest => if String.eqb k key then Some v else dict_get key rest
  end.

(** The crossover flags of [add_macd]:
    [(a > b) & (a.shift(1) <= b.shift(1))] and its mirror image. *)
Definition cross_up (a b : column) : list bool :=
  zip_with andb (zip_with cell_gt a b) (zip_with cell_le (shift1 a) (shift1 b)).

Definition cross_down (a b : column) : list bool :=
  zip_with andb (zip_with cell_lt a b) (zip_with cell_ge (shift1 a) (shift1 b)).

Definition macd_bullish_cross (macd macd_signal : column) : list bool :=
  cross_up macd macd_signal.

Definition macd_bearish_cross (macd macd_signal : column) : list bool :=
  cross_down macd macd_signal.

(** The first two statements of [_chaikin_money_flow]: the money-flow
    volume, then the [np.where(high == low, 0, mfv)] mask; [None] is an
    exception. *)
Definition money_flow_volume (high low close volume : column)
  : option column :=
  close_low ← np_broadcast cell_sub close low;
  high_close ← np_broadcast cell_sub high close;
  numerator ← np_broadcast cell_sub close_low high_close;
  range ← np_broadcast cell_sub high low;
  ratio ← np_broadcast cell_div numerator range;
  mfv ← np_broadcast cell_mul ratio volume;
  flat ← np_broadcast cell_eq high low;
  np_where flat 0 mfv.

Section ChaikinMoneyFlow.

(** [pd.Series(xs).rolling(period).sum()], a function of pandas: its
    values, or [None] if the call raises. *)
Variable pd_rolling_sum : nat -> column -> option column.

(** The [try] block of [_chaikin_money_flow]; [None] is an exception. *)
Definition chaikin_money_flow_try (high low close volume : column)
  (period : nat) : option column :=
  mfv ← money_flow_volume high low close volume;
  sum_mfv ← pd_rolling_sum period mfv;
  sum_volume ← pd_rolling_sum period volume;
  Some (series_div sum_mfv sum_volume).

(** [_chaikin_money_flow(high, low, close, volume, period)]: the value of
    the [try] block, or the all-null column of the [except] branch. *)
Definition _chaikin_money_flow (high low close volume : column) (period : nat)
  : column :=
  match chaikin_money_flow_try high low close volume period with
  | Some cmf => cmf
  | None => np_full_like_nan close
  end.

End ChaikinMoneyFlow.

(** ** technical_indicators.py: data frames and [add_all_indicators] *)

Inductive series :=
| FloatSeries (xs : column)
| BoolSeries (bs : list bool).

(** A frame: its number of rows and its columns by name. *)
Record DataFrame := mkFrame {
  nrows : nat;
  columns : gmap string series
}.

(** [df[key] = value] *)
Definition set_column (key : string) (value : series) (df : DataFrame)
  : DataFrame :=
  mkFrame (nrows df) (<[key := value]> (columns df)).

(** [df[key].values] for a numeric column; [None] is the [KeyError]. *)
Definition float_values (key : string) (df : DataFrame) : option column :=
  match columns df !! key with
  | Some (FloatSeries xs) => Some xs
  | _ => None
  end.

Definition required_columns : list string :=
  ["open"; "high"; "low"; "close"; "volume"]%string.

(** The loop over [required_columns]: the first missing name, if any. *)
Fixpoint missing_column (cols : list string) (df : DataFrame) : option string :=
  match cols with
  | [] => None
  | col :: rest =>
      match columns df !! col with
      | None => Some col
      | Some _ => missing_column rest df
      end
  end.

(** The twelve steps, in the order [add_all_indicators] calls them. *)
Inductive step :=
| add_moving_averages | add_bollinger_bands | add_price_channels
| add_rsi | add_macd | add_stochastic | add_williams_r | add_cci
| add_volume_indicators | add_volatility_indicators
| add_trend_indicators | add_support_resistance.

Definition pipeline : list step :=
  [ add_moving_averages; add_bollinger_bands; add_price_channels;
    add_rsi; add_macd; add_stochastic; add_williams_r; add_cci;
    add_volume_indicators; add_volatility_indicators;
    add_trend_indicators; add_support_resistance ].

(** What the statements inside a step's [try] block do: they run to the
    end, or they raise after having updated the frame so far. *)
Inductive outcome :=
| Completed (df : DataFrame)
| Raised (df : DataFrame).

Definition frame_of (o : outcome) : DataFrame :=
  match o with
  | Completed df => df
  | Raised df => df
  end.

Definition has_raised (o : outcome) : bool :=
  match o with
  | Completed _ => false
  | Raised _ => true
  end.

Section Engine.

(** [talib.MACD(close, 12, 26, 9)]: the three output arrays, or [None]
    when the library raises. *)
Variable talib_MACD : column -> option (column * column * column).

(** The [try] blocks of the eleven steps that only call the numeric
    libraries. *)
Variable library_step : step -> DataFrame -> outcome.

(** The [try] block of [add_macd]. *)
Definition add_macd_body (df : DataFrame) : outcome :=
  match float_values "close" df with
  | None => Raised df
  | Some close =>
      match talib_MACD close with
      | None => Raised df
      | Some (macd, macd_signal, macd_hist) =>
          let df := set_column "macd" (FloatSeries macd) df in
          let df := set_column "macd_signal" (FloatSeries macd_signal) df in
          let df := set_column "macd_histogram" (FloatSeries macd_hist) df in
          let df :=
            set_column "macd_bullish_cross"
              (BoolSeries (macd_bullish_cross macd macd_signal)) df in
          let df :=
            set_column "macd_bearish_cross"
              (BoolSeries (macd_bearish_cross macd macd_signal)) df in
          let zero := List.map (fun _ => Some 0%Q) macd in
          let df :=
            set_column "macd_above_zero"
              (BoolSeries (zip_with cell_gt macd zero)) df in
          let df :=
            set_column "macd_zero_cross_up"
              (BoolSeries
                 (zip_with andb (zip_with cell_gt macd zero)
                    (zip_with cell_le (shift1 macd) zero))) df in
          let df :=
            set_column "macd_zero_cross_down"
              (BoolSeries
                 (zip_with andb (zip_with cell_lt macd zero)
                    (zip_with cell_ge (shift1 macd) zero))) df in
          Completed df
      end
  end.

Definition try_body (s : step) (df : DataFrame) : outcome :=
  match s with
  | add_macd => add_macd_body df
  | _ => library_step s df
  end.

(** A step method: [try: ... except Exception: log] and then
    [return df], whatever happened. *)
Definition run_step (s : step) (df : DataFrame) : DataFrame :=
  frame_of (try_body s df).

(** The frame after a run of steps. *)
Definition run_steps (steps : list step) (df : DataFrame) : DataFrame :=
  fold_left (fun data s => run_step s data) steps df.

(** Whether the [try] block of some step of the run has raised. *)
Fixpoint step_raised (steps : list step) (df : DataFrame) : bool :=
  match steps with
  | [] => false
  | s :: rest =>
      has_raised (try_body s df) || step_raised rest (run_step s df)
  end.

(** [add_all_indicators(df)].  The steps work on [df.copy()], and no
    step lets an exception out, so the outer handler stays idle. *)
Definition add_all_indicators (df : DataFrame) : DataFrame :=
  match missing_column required_columns df with
  | Some _ => df
  | None => run_steps pipeline df
  end.

End Engine.

(** ** real_time_analyzer.py: data *)

(** The three values of [MarketSignal.signal_type]. *)
Inductive SignalType := bullish | bearish | neutral.

Definition SignalType_eqb (a b : SignalType) : bool :=
  match a, b with
  | bullish, bullish | bearish, bearish | neutral, neutral => true
  | _, _ => false
  end.

Record MarketSignal := mkSignal {
  timestamp : datetime;
  token : string;
  signal_type : SignalType;
  strength : Q;
  source : string;
  data : list (string * cell)
}.

(** [SentimentData]; [num] is the model of its two float fields. *)
Record SentimentData (num : Type) := mkSentiment {
  sd_timestamp : datetime;
  sd_token : string;
  sentiment_score : num;
  confidence : num;
  sd_source : string;
  text_sample : string
}.

Arguments mkSentiment {num}.
Arguments sd_timestamp {num}.
Arguments sd_token {num}.
Arguments sentiment_score {num}.
Arguments confidence {num}.
Arguments sd_source {num}.
Arguments text_sample {num}.

(** The dict built by the three price fetchers. *)
Record PriceData := mkPrice {
  pd_token : string;
  pd_price : Q;
  pd_change_24h : Q;
  pd_volume_24h : Q;
  pd_timestamp : datetime;
  pd_source : string
}.

(** The mutable attributes of [RealTimeAnalyzer] that the analysis
    tasks share. *)
Record RealTimeAnalyzer := mkAnalyzer {
  price_data_cache : gmap string PriceData;
  sentiment_cache : gmap string (SentimentData Q);
  market_signals : list MarketSignal
}.

Definition set_market_signals (signals : list MarketSignal)
  (self : RealTimeAnalyzer) : RealTimeAnalyzer :=
  mkAnalyzer (price_data_cache self) (sentiment_cache self) signals.

Definition set_price_data (tok : string) (price_data : PriceData)
  (self : RealTimeAnalyzer) : RealTimeAnalyzer :=
  mkAnalyzer (<[tok := price_data]> (price_data_cache self))
             (sentiment_cache self) (market_signals self).

(** [settings.SUPPORTED_TOKENS] of config.py. *)
Definition SUPPORTED_TOKENS : list string :=
  ["ETH"; "BTC"; "USDC"; "USDT"; "DAI"; "WETH"; "MATIC"; "ARB"; "OP"]%string.

(** ** real_time_analyzer.py: price movement *)

(** The local list [signals] of [_analyze_price_movement]. *)
Definition price_movement_signals (self : RealTimeAnalyzer) (tok : string)
  (price_data : PriceData) (now : datetime) : list MarketSignal :=
  let change_24h := pd_change_24h price_data in
  let volume_24h := pd_volume_24h price_data in
  let signals := [] in
  let signals :=
    if Qltb 5 (Qabs change_24h) then
      let signal_type := if Qltb 0 change_24h then bullish else bearish in
      let strength := py_min 1 (Qabs change_24h / 20)%Q in
      signals ++
      [ mkSignal now tok signal_type strength "price_movement"
          [ ("change_24h", Some change_24h);
            ("volume_24h", Some volume_24h) ]%string ]
    else signals in
  let signals :=
    match price_data_cache self !! tok with
    | Some prev_data =>
        let prev_volume := pd_volume_24h prev_data in
        if Qltb 0 prev_volume && Qltb (prev_volume * 2)%Q volume_24h then
          signals ++
          [ mkSignal now tok bullish 0.6%Q "volume_spike"
              [ ("volume_increase", Some (volume_24h / prev_volume)%Q) ]%string ]
        else signals
    | None => signals
    end in
  signals.

(** [_analyze_price_movement(token, price_data)]: extend the store, then
    keep the signals of the last 24 hours.  The fields of [price_data]
    are numbers here; on a field that is not a number the body raises
    into its own handler before it touches the store. *)
Definition _analyze_price_movement (self : RealTimeAnalyzer) (tok : string)
  (price_data : PriceData) (now : datetime) : RealTimeAnalyzer :=
  let signals := price_movement_signals self tok price_data now in
  let extended := market_signals self ++ signals in
  let cutoff_time := now - timedelta_hours 24 in
  set_market_signals
    (List.filter (fun signal => cutoff_time <? timestamp signal) extended)
    self.

(** One turn of the loop body of [_price_data_collector] for one token;
    [fetched] is what [_fetch_latest_price_data] has returned. *)
Definition collect_price (self : RealTimeAnalyzer) (tok : string)
  (fetched : option PriceData) (now : datetime) : RealTimeAnalyzer :=
  match fetched with
  | Some price_data =>
      let self := set_price_data tok price_data self in
      _analyze_price_movement self tok price_data now
  | None => self
  end.

(** The [for token in SUPPORTED_TOKENS] loop of [_price_data_collector]. *)
Definition _price_data_collector (fetch : string -> option PriceData)
  (now : datetime) (self : RealTimeAnalyzer) : RealTimeAnalyzer :=
  fold_left (fun self tok => collect_price self tok (fetch tok) now)
            SUPPORTED_TOKENS self.

(** ** real_time_analyzer.py: technical signals *)

(** The cell of a series at row [i]; a boolean counts as 1 or 0. *)
Definition series_cell (s : series) (i : nat) : cell :=
  match s with
  | FloatSeries xs => List.nth i xs nan
  | BoolSeries bs => Some (if List.nth i bs false then 1%Q else 0%Q)
  end.

(** [df.iloc[i].get(key, default)] *)
Definition row_get (df : DataFrame) (i : nat) (key : string) (default : Q)
  : cell :=
  match columns df !! key with
  | Some s => series_cell s i
  | None => Some default
  end.

Section Analyzer.

(** [self.technical_indicators.add_all_indicators] *)
Variable technical_indicators : DataFrame -> DataFrame.

(** [_generate_technical_signals(token, data)] *)
Definition _generate_technical_signals (tok : string) (data : DataFrame)
  (now : datetime) : list MarketSignal :=
  let signals := [] in
  let data_with_indicators := technical_indicators data in
  if (nrows data_with_indicators <? 20)%nat then signals else
  let latest := row_get data_with_indicators (nrows data_with_indicators - 1) in
  let prev := row_get data_with_indicators (nrows data_with_indicators - 2) in
  (* RSI signals *)
  let rsi := latest "rsi"%string 50%Q in
  let signals :=
    if cell_lt rsi (Some 30%Q) then
      signals ++
      [ mkSignal now tok bullish 0.7%Q "rsi_oversold" [("rsi"%string, rsi)] ]
    else if cell_gt rsi (Some 70%Q) then
      signals ++
      [ mkSignal now tok bearish 0.7%Q "rsi_overbought" [("rsi"%string, rsi)] ]
    else signals in
  (* MACD signals *)
  let macd := latest "macd"%string 0%Q in
  let macd_signal := latest "macd_signal"%string 0%Q in
  let prev_macd := prev "macd"%string 0%Q in
  let prev_macd_signal := prev "macd_signal"%string 0%Q in
  let signals :=
    if cell_gt macd macd_signal && cell_le prev_macd prev_macd_signal then
      signals ++
      [ mkSignal now tok bullish 0.6%Q "macd_bullish_crossover"
          [ ("macd", macd); ("signal", macd_signal) ]%string ]
    else if cell_lt macd macd_signal && cell_ge prev_macd prev_macd_signal then
      signals ++
      [ mkSignal now tok bearish 0.6%Q "macd_bearish_crossover"
          [ ("macd", macd); ("signal", macd_signal) ]%string ]
    else signals in
  (* Moving average signals *)
  let price := latest "close"%string 0%Q in
  let sma_20 := latest "sma_20"%string 0%Q in
  let sma_50 := latest "sma_50"%string 0%Q in
  let signals :=
    if cell_gt price sma_20 && cell_gt sma_20 sma_50 then
      signals ++
      [ mkSignal now tok bullish 0.5%Q "ma_bullish_alignment"
          [ ("price", price); ("sma_20", sma_20); ("sma_50", sma_50) ]%string ]
    else if cell_lt price sma_20 && cell_lt sma_20 sma_50 then
      signals ++
      [ mkSignal now tok bearish 0.5%Q "ma_bearish_alignment"
          [ ("price", price); ("sma_20", sma_20); ("sma_50", sma_50) ]%string ]
    else signals in
  signals.

(** One turn of the loop body of [_technical_analysis_processor];
    [historical_data] is what [get_recent_price_data] has returned. *)
Definition process_technical (self : RealTimeAnalyzer) (tok : string)
  (historical_data : option DataFrame) (now : datetime) : RealTimeAnalyzer :=
  match historical_data with
  | Some frame =>
      if (50 <? nrows frame)%nat then
        let technical_signals := _generate_technical_signals tok frame now in
        match technical_signals with
        | [] => self
        | _ :: _ =>
            set_market_signals (market_signals self ++ technical_signals) self
        end
      else self
  | None => self
  end.

End Analyzer.

(** ** real_time_analyzer.py: the composite fuser *)

(** The signals of [tok] that are younger than one hour. *)
Definition recent_signals (self : RealTimeAnalyzer) (tok : string)
  (now : datetime) : list MarketSignal :=
  List.filter
    (fun signal =>
       String.eqb (token signal) tok
       && (now - timedelta_hours 1 <? timestamp signal))
    (market_signals self).

(** [sum(signal.strength for signal in signals if signal.signal_type == t)] *)
Definition strength_of (t : SignalType) (signals : list MarketSignal) : Q :=
  py_sum
    (List.map strength
       (List.filter (fun signal => SignalType_eqb (signal_type signal) t)
                    signals)).

(** [_generate_composite_signal(token)] *)
Definition _generate_composite_signal (self : RealTimeAnalyzer) (tok : string)
  (now : datetime) : option MarketSignal :=
  let recent_signals := recent_signals self tok now in
  match recent_signals with
  | [] => None
  | _ :: _ =>
      let bullish_strength := strength_of bullish recent_signals in
      let bearish_strength := strength_of bearish recent_signals in
      let news_sentiment := sentiment_cache self !! (tok +:+ "_news") in
      let social_sentiment := sentiment_cache self !! (tok +:+ "_social") in
      let score := 0%Q in
      let score :=
        match news_sentiment with
        | Some news => (score + sentiment_score news * 0.6)%Q
        | None => score
        end in
      let score :=
        match social_sentiment with
        | Some social => (score + sentiment_score social * 0.4)%Q
        | None => score
        end in
      let net_technical := (bullish_strength - bearish_strength)%Q in
      let combined_score := (net_technical + score)%Q in
      let '(signal_type, strength) :=
        if Qltb 0.3 combined_score then
          (bullish, py_min 1 combined_score)
        else if Qltb combined_score (-0.3) then
          (bearish, py_min 1 (Qabs combined_score))
        else (neutral, 0.5%Q) in
      Some
        (mkSignal now tok signal_type strength "composite"
           [ ("technical_score", Some net_technical);
             ("sentiment_score", Some score);
             ("combined_score", Some combined_score);
             ("signal_count",
              Some (inject_Z (Z.of_nat (List.length recent_signals)))) ]%string)
  end.

(** One turn of the loop body of [_market_signal_generator]. *)
Definition fuse (self : RealTimeAnalyzer) (tok : string) (now : datetime)
  : RealTimeAnalyzer :=
  match _generate_composite_signal self tok now with
  | Some composite_signal =>
      set_market_signals (market_signals self ++ [composite_signal]) self
  | None => self
  end.

(** The [for token in SUPPORTED_TOKENS] loop of [_market_signal_generator]. *)
Definition _market_signal_generator (now : datetime) (self : RealTimeAnalyzer)
  : RealTimeAnalyzer :=
  fold_left (fun self tok => fuse self tok now) SUPPORTED_TOKENS self.

(** ** real_time_analyzer.py: the news sentiment aggregator *)






Local Open Scope R_scope.





Section News.

(** [_get_sentiment_score(text)]: the score of the language model, or
    [None]. *)
Variable _get_sentiment_score : string -> option R.




End News.

Local Close Scope R_scope.

(** ** The fuser's contract, in the words of the specification *)

#[global] Instance SignalType_eq_dec : EqDecision SignalType.
Proof. solve_decision. Defined.

(** A signal of [tok] of type [t], stamped within the last hour. *)
Definition in_window (tok : string) (now : datetime) (t : SignalType)
  (s : MarketSignal) : Prop :=
  token s = tok /\ now - timedelta_hours 1 < timestamp s /\ signal_type s = t.

(** A raw signal: its source tag is not [composite]. *)
Definition is_raw (s : MarketSignal) : Prop := source s <> "composite"%string.

(** The strengths of the signals of a store that [counted] selects,
    added up. *)
Fixpoint total_strength (counted : MarketSignal -> bool)
  (store : list MarketSignal) : Q :=
  match store with
  | [] => 0%Q
  | s :: rest =>
      ((if counted s then strength s else 0) + total_strength counted rest)%Q
  end.

(** Net technical score over every signal in the window. *)
Definition net_technical_of_window (store : list MarketSignal) (tok : string)
  (now : datetime) : Q :=
  (total_strength (fun s => bool_decide (in_window tok now bullish s)) store
   - total_strength (fun s => bool_decide (in_window tok now bearish s)) store)%Q.

(** Net technical score over the raw signals in the window only. *)
Definition net_technical_of_raw (store : list MarketSignal) (tok : string)
  (now : datetime) : Q :=
  (total_strength
     (fun s => bool_decide (in_window tok now bullish s /\ is_raw s)) store
   - total_strength
       (fun s => bool_decide (in_window tok now bearish s /\ is_raw s)) store)%Q.

(** The entries of the [data] dict of a composite signal. *)
Definition technical_score (s : MarketSignal) : option cell :=
  dict_get "technical_score" (data s).

Definition combined_score (s : MarketSignal) : option cell :=
  dict_get "combined_score" (data s).

(** ** A short run of the analyzer, used as a test scenario *)

Definition minutes (m : Z) : Z := m * 60000000.

Definition empty_analyzer : RealTimeAnalyzer := mkAnalyzer ∅ ∅ [].

(** ETH is up 10 %% over 24 hours. *)
Definition eth_rally : PriceData :=
  mkPrice "ETH" 2000 10 1000000 0 "coingecko".

(** The price collector has seen [eth_rally] at time 0. *)
Definition after_price : RealTimeAnalyzer :=
  collect_price empty_analyzer "ETH" (Some eth_rally) 0.

(** The fuser has run five minutes later. *)
Definition after_fusion : RealTimeAnalyzer :=
  fuse after_price "ETH" (minutes 5).

(** One minute after [eth_rally] the feed reports a tripled volume. *)
Definition eth_volume_tripled : PriceData :=
  mkPrice "ETH" 2000 0 3000000 (minutes 1) "coingecko".

(** A frame of 51 flat bars, and an indicator engine that only adds an
    [rsi] column of 25. *)
Definition flat_frame : DataFrame :=
  let flat := FloatSeries (List.repeat (Some 100%Q) 51) in
  mkFrame 51
    (<["open" := flat]> (<["high" := flat]> (<["low" := flat]>
       (<["close" := flat]> (<["volume" := flat]> ∅))))).

Definition rsi_only (df : DataFrame) : DataFrame :=
  set_column "rsi" (FloatSeries (List.repeat (Some 25%Q) (nrows df))) df.

(** The price feed is down for 25 hours; then the technical processor
    runs, and the fuser five minutes later. *)
Definition after_technical : RealTimeAnalyzer :=
  process_technical rsi_only after_price "ETH" (Some flat_frame)
    (timedelta_hours 25).

Definition after_late_fusion : RealTimeAnalyzer :=
  fuse after_technical "ETH" (timedelta_hours 25 + minutes 5).

(** ** The indicator engine's contract, in the words of the specification *)

(** Row [i] is a bar where [a > b] holds now and [a <= b] held on the
    previous bar; both comparisons are between defined values. *)
Definition crosses_above (a b : column) (i : nat) : Prop :=
  exists (j : nat) (x y x' y' : Q),
    i = S j
    /\ List.nth i a nan = Some x /\ List.nth i b nan = Some y /\ (y < x)%Q
    /\ List.nth j a nan = Some x' /\ List.nth j b nan = Some y'
    /\ (x' <= y')%Q.

Definition crosses_below (a b : column) (i : nat) : Prop :=
  exists (j : nat) (x y x' y' : Q),
    i = S j
    /\ List.nth i a nan = Some x /\ List.nth i b nan = Some y /\ (x < y)%Q
    /\ List.nth j a nan = Some x' /\ List.nth j b nan = Some y'
    /\ (y' <= x')%Q.

(** Row [i] is a flat bar: [high == low]. *)
Definition flat_bar (high low : column) (i : nat) : Prop :=
  exists h l : Q,
    List.nth i high nan = Some h /\ List.nth i low nan = Some l /\ (h == l)%Q.

(** Three bars; the last one has high 11, low 10 and close 21/2. *)
Definition three_highs : column := [Some 10%Q; Some 12%Q; Some 11%Q].
Definition three_lows : column := [Some 8%Q; Some 9%Q; Some 10%Q].
Definition three_closes : column := [Some 9%Q; Some 11%Q; Some 10.5%Q].

(** Twelve bars of a MACD line that rises through a flat signal line
    between row 9 and row 10. *)
Definition rising_macd : column :=
  List.repeat (Some (-1)%Q) 10 ++ [Some 1%Q; Some 2%Q].
Definition flat_signal : column := List.repeat (Some 0%Q) 12.

(** An engine in which the RSI step adds its column and the MACD call of
    the numeric library raises; a frame that lacks the volume column. *)
Definition macd_raises (close : column) : option (column * column * column) :=
  None.

Definition rsi_step_only (s : step) (df : DataFrame) : outcome :=
  match s with
  | add_rsi => Completed (rsi_only df)
  | _ => Completed df
  end.

Definition frame_without_volume : DataFrame :=
  mkFrame 51 (delete "volume"%string (columns flat_frame)).

(** ** The news aggregator's contract, in the words of the specification *)






(** ** technical_indicators.py: cumulative and rolling helpers *)

(** The running sums that follow the first cell of [np.cumsum]. *)
Fixpoint cumsum_from (acc : cell) (xs : column) : column :=
  match xs with
  | [] => []
  | x :: rest => cell_add acc x :: cumsum_from (cell_add acc x) rest
  end.

(** [np.cumsum(xs)] *)
Definition np_cumsum (xs : column) : column :=
  match xs with
  | [] => []
  | x :: rest => x :: cumsum_from x rest
  end.

(** [np.diff(xs, prepend=xs[0])]: with [a] the array [xs] after [xs[0]],
    this is [a[1:] - a[:-1]]; [None] is the [IndexError] of [xs[0]] on an
    empty array. *)
Definition np_diff_prepend_first (xs : column) : option column :=
  match xs with
  | [] => None
  | x0 :: _ => Some (zip_with cell_sub xs (x0 :: List.removelast xs))
  end.

(** [_volume_price_trend(close, volume)] *)
Definition _volume_price_trend (close volume : column) : column :=
  match np_diff_prepend_first close with
  | Some price_change =>
      let price_change_pct := zip_with cell_div price_change close in
      np_cumsum (zip_with cell_mul volume price_change_pct)
  | None => np_full_like_nan close
  end.

(** The values of a window when none of them is null. *)
Fixpoint all_finite (w : column) : option (list Q) :=
  match w with
  | [] => Some []
  | Some q :: rest =>
      match all_finite rest with
      | Some qs => Some (q :: qs)
      | None => None
      end
  | None :: _ => None
  end.

(** The largest or smallest value of a window; null when a cell of the
    window is null. *)
Definition window_extreme (pick : Q -> Q -> Q) (w : column) : cell :=
  match all_finite w with
  | Some (q :: qs) => Some (fold_left pick qs q)
  | _ => nan
  end.

Definition rolling_extreme (pick : Q -> Q -> Q) (n : nat) (xs : column)
  : column :=
  List.map
    (fun i => if (S i <? n)%nat then nan
              else window_extreme pick (window n i xs))
    (List.seq 0 (List.length xs)).

(** [pd.Series(xs).rolling(n).max()] and [.min()] *)
Definition rolling_max : nat -> column -> column := rolling_extreme Qmax.
Definition rolling_min : nat -> column -> column := rolling_extreme Qmin.

(** [_calculate_fibonacci_levels(high, low, period)] *)
Definition _calculate_fibonacci_levels (high low : column) (period : nat)
  : list (string * column) :=
  let rolling_high := rolling_max period high in
  let rolling_low := rolling_min period low in
  let diff := zip_with cell_sub rolling_high rolling_low in
  let level (k : Q) := zip_with cell_sub rolling_high (scalar_l cell_mul k diff) in
  [ ("fib_0", rolling_high);
    ("fib_236", level 0.236%Q);
    ("fib_382", level 0.382%Q);
    ("fib_500", level 0.500%Q);
    ("fib_618", level 0.618%Q);
    ("fib_786", level 0.786%Q);
    ("fib_100", rolling_low) ]%string.

Section Trend.

(** [stats.linregress(np.arange(len(y)), y)]: the slope and the r-value, or
    [None] when scipy raises. *)
Variable stats_linregress : column -> option (cell * cell).

(** [slope * r_value ** 2] over the 20 closes before row [i]. *)
Definition trend_at (close : column) (i : nat) : option cell :=
  let y := List.firstn 20 (List.skipn (i - 20) close) in
  match stats_linregress y with
  | Some (slope, r_value) => Some (cell_mul slope (cell_mul r_value r_value))
  | None => None
  end.

(** The loop [for i in range(20, len(close))]: the values it assigns, or
    [None] as soon as an iteration raises. *)
Fixpoint trend_loop (close : column) (rows : list nat) : option column :=
  match rows with
  | [] => Some []
  | i :: rest =>
      match trend_at close i with
      | Some value =>
          match trend_loop close rest with
          | Some values => Some (value :: values)
          | None => None
          end
      | None => None
      end
  end.

(** [_calculate_trend_strength(close)] *)
Definition _calculate_trend_strength (close : column) : column :=
  match trend_loop close (List.seq 20 (List.length close - 20)) with
  | Some values =>
      List.repeat nan (Nat.min 20 (List.length close)) ++ values
  | None => np_full_like_nan close
  end.

End Trend.

(** ** Further vocabulary for the indicator engine *)

(** A column without null cells. *)
Definition finite (xs : list Q) : column := List.map Some xs.

(** A regression stand-in that never raises: the first close of the
    window as slope and an r-value of 1.  Two series of 22 closes that
    differ on the last bar only. *)
Definition first_close_regression (y : column) : option (cell * cell) :=
  Some (List.nth 0 y nan, Some 1%Q).

Definition closes_ending_at (last : Q) : column :=
  List.map (fun k => Some (inject_Z (Z.of_nat k))) (List.seq 0 21)
  ++ [Some last].

(** ** technical_indicators.py: [get_signal_summary] and [detect_patterns] *)

(** The truth value of a cell in an [if]: a float is true unless it is
    zero (nan is true). *)
Definition series_truth (s : series) (i : nat) : bool :=
  match s with
  | BoolSeries bs => List.nth i bs false
  | FloatSeries xs =>
      match List.nth i xs nan with
      | Some q => negb (Qeq_bool q 0)
      | None => true
      end
  end.

(** [if df.iloc[i].get(key, default):] *)
Definition row_flag (df : DataFrame) (i : nat) (key : string) (default : bool)
  : bool :=
  match columns df !! key with
  | Some s => series_truth s i
  | None => default
  end.

(** An entry of [signal_details]. *)
Record SignalDetail := mkDetail {
  indicator : string;
  d_signal : string;
  d_strength : Q
}.

(** The dict that [get_signal_summary] returns for a frame with rows. *)
Record SignalSummary := mkSummary {
  bullish_signals : nat;
  bearish_signals : nat;
  neutral_signals : nat;
  signal_details : list SignalDetail;
  overall_signal : SignalType;
  signal_strength : Q
}.

(** [get_signal_summary(df)]; [None] is the empty dict returned for a frame
    without rows. *)
Definition get_signal_summary (df : DataFrame) : option SignalSummary :=
  if (nrows df =? 0)%nat then None else
  let latest := row_get df (nrows df - 1) in
  let flag := row_flag df (nrows df - 1) in
  let '(bull, bear, details) := (0%nat, 0%nat, @nil SignalDetail) in
  (* RSI signals *)
  let '(bull, bear, details) :=
    if cell_lt (latest "rsi"%string 50%Q) (Some 30%Q) then
      (S bull, bear, details ++ [mkDetail "RSI" "oversold" 0.7%Q])
    else if cell_gt (latest "rsi"%string 50%Q) (Some 70%Q) then
      (bull, S bear, details ++ [mkDetail "RSI" "overbought" 0.7%Q])
    else (bull, bear, details) in
  (* MACD signals *)
  let '(bull, bear, details) :=
    if flag "macd_bullish_cross"%string false then
      (S bull, bear, details ++ [mkDetail "MACD" "bullish_crossover" 0.6%Q])
    else if flag "macd_bearish_cross"%string false then
      (bull, S bear, details ++ [mkDetail "MACD" "bearish_crossover" 0.6%Q])
    else (bull, bear, details) in
  (* Moving average signals *)
  let price := latest "close"%string 0%Q in
  let sma_20 := latest "sma_20"%string 0%Q in
  let sma_50 := latest "sma_50"%string 0%Q in
  let '(bull, bear, details) :=
    if cell_gt price sma_20 && cell_gt sma_20 sma_50 then
      (S bull, bear, details ++ [mkDetail "MA" "bullish_alignment" 0.5%Q])
    else if cell_lt price sma_20 && cell_lt sma_20 sma_50 then
      (bull, S bear, details ++ [mkDetail "MA" "bearish_alignment" 0.5%Q])
    else (bull, bear, details) in
  (* Bollinger Band signals *)
  let bb_position := latest "bb_position"%string 0.5%Q in
  let '(bull, bear, details) :=
    if cell_lt bb_position (Some 0.1%Q) then
      (S bull, bear, details ++ [mkDetail "BB" "oversold" 0.4%Q])
    else if cell_gt bb_position (Some 0.9%Q) then
      (bull, S bear, details ++ [mkDetail "BB" "overbought" 0.4%Q])
    else (bull, bear, details) in
  (* Volume signals *)
  let volume_ratio := latest "volume_ratio"%string 1%Q in
  let '(bull, bear, details) :=
    if cell_gt volume_ratio (Some 2%Q) then
      (S bull, bear, details ++ [mkDetail "Volume" "high_volume" 0.3%Q])
    else (bull, bear, details) in
  (* Overall signal *)
  let total_signals := (bull + bear)%nat in
  let signal_ratio :=
    (inject_Z (Z.of_nat bull - Z.of_nat bear)
     / inject_Z (Z.of_nat total_signals))%Q in
  let overall :=
    if (0 <? total_signals)%nat then
      if Qltb 0.3 signal_ratio then bullish
      else if Qltb signal_ratio (-0.3) then bearish
      else neutral
    else neutral in
  let strength := if (0 <? total_signals)%nat then Qabs signal_ratio else 0%Q in
  Some (mkSummary bull bear 0 details overall strength).

(** The nine candlestick patterns, in the order of [pattern_functions]. *)
Definition pattern_names : list string :=
  [ "doji"; "hammer"; "hanging_man"; "shooting_star"; "engulfing_bullish";
    "morning_star"; "evening_star"; "three_white_soldiers";
    "three_black_crows" ]%string.

(** An entry of the list that [detect_patterns] returns. *)
Record Pattern := mkPattern {
  pattern : string;
  p_signal : SignalType;
  p_strength : Q;
  periods_ago : nat
}.

(** [xs[-n:]] *)
Definition lastn {A} (n : nat) (xs : list A) : list A :=
  List.skipn (List.length xs - n) xs.

(** The loop [for i, value in enumerate(recent_patterns)], from index [i]
    on; [len] is [len(recent_patterns)]. *)
Fixpoint recent_hits (name : string) (len i : nat) (recent : list Z)
  : list Pattern :=
  match recent with
  | [] => []
  | value :: rest =>
      (if value =? 0 then []
       else [ mkPattern name (if 0 <? value then bullish else bearish)
                (inject_Z (Z.abs value) / 100)%Q (len - i - 1) ])
      ++ recent_hits name len (S i) rest
  end.

Section Patterns.

(** The candlestick function of talib stored under a name: its integer
    output array, or [None] when it raises. *)
Variable talib_CDL :
  string -> column -> column -> column -> column -> option (list Z).

(** [detect_patterns(df)] *)
Definition detect_patterns (df : DataFrame) : list Pattern :=
  if (nrows df <? 50)%nat then [] else
  match float_values "high" df, float_values "low" df,
        float_values "close" df, float_values "open" df with
  | Some high, Some low, Some close, Some open_prices =>
      List.flat_map
        (fun pattern_name =>
           match talib_CDL pattern_name open_prices high low close with
           | Some pattern_result =>
               let recent_patterns := lastn 10 pattern_result in
               recent_hits pattern_name (List.length recent_patterns) 0
                 recent_patterns
           | None => []
           end)
        pattern_names
  | _, _, _, _ => []
  end.

End Patterns.

(** The overall signal and the signal strength that go with two counters:
    the thresholds of [get_signal_summary] on the ratio
    (bullish - bearish) / (bullish + bearish). *)
Definition summary_overall (bull bear : nat) : SignalType * Q :=
  let ratio :=
    (inject_Z (Z.of_nat bull - Z.of_nat bear)
     / inject_Z (Z.of_nat (bull + bear)))%Q in
  if (0 <? bull + bear)%nat then
    (if Qltb 0.3 ratio then bullish
     else if Qltb ratio (-0.3) then bearish else neutral,
     Qabs ratio)
  else (neutral, 0%Q).

(** A MACD library call that reports a line rising through its signal
    line on the last of 20 bars, and the 20-bar frame that [add_macd]
    makes of it. *)
Definition late_cross_macd (close : column)
  : option (column * column * column) :=
  Some (List.repeat (Some (-1)%Q) 19 ++ [Some 1%Q],
        List.repeat (Some 0%Q) 20,
        List.repeat (Some 0%Q) 20).

Definition twenty_bars : DataFrame :=
  mkFrame 20 (<["close" := FloatSeries (List.repeat (Some 100%Q) 20)]> ∅).

Definition twenty_bars_with_macd : DataFrame :=
  frame_of (add_macd_body late_cross_macd twenty_bars).

(** A candlestick library in which only the hammer function answers: a
    bullish hit of 100 on the last of 51 bars. *)
Definition hammer_only (name : string) (open_prices high low close : column)
  : option (list Z) :=
  if String.eqb name "hammer" then Some (List.repeat 0 50 ++ [100])
  else None.

(** ** real_time_analyzer.py: fetching and the sentiment collectors *)

(** What a price source does for a token: it returns a dict, it returns
    nothing, or it raises. *)
Inductive fetch_result :=
| Fetched (price_data : PriceData)
| NoData
| FetchFailed.

(** The loop [for source in sources] of [_fetch_latest_price_data]. *)
Fixpoint first_fetched (sources : list (string -> fetch_result)) (tok : string)
  : option PriceData :=
  match sources with
  | [] => None
  | source :: rest =>
      match source tok with
      | Fetched price_data => Some price_data
      | NoData => first_fetched rest tok
      | FetchFailed => first_fetched rest tok
      end
  end.

(** [_fetch_latest_price_data(token)] over its three sources. *)
Definition _fetch_latest_price_data
  (_fetch_from_coingecko _fetch_from_binance _fetch_from_coinmarketcap
     : string -> fetch_result)
  (tok : string) : option PriceData :=
  first_fetched
    [_fetch_from_coingecko; _fetch_from_binance; _fetch_from_coinmarketcap]
    tok.

Definition set_sentiment (key : string) (reading : SentimentData Q)
  (self : RealTimeAnalyzer) : RealTimeAnalyzer :=
  mkAnalyzer (price_data_cache self)
             (<[key := reading]> (sentiment_cache self))
             (market_signals self).

(** One turn of the loop body of [_news_sentiment_collector];
    [sentiment_data] is the reading made of the fetched news, if there
    were news and a reading came out of them. *)
Definition collect_news (self : RealTimeAnalyzer) (tok : string)
  (sentiment_data : option (SentimentData Q)) : RealTimeAnalyzer :=
  match sentiment_data with
  | Some reading => set_sentiment (tok +:+ "_news") reading self
  | None => self
  end.

(** One turn of the loop body of [_social_sentiment_collector]. *)
Definition collect_social (self : RealTimeAnalyzer) (tok : string)
  (social_sentiment : SentimentData Q) : RealTimeAnalyzer :=
  set_sentiment (tok +:+ "_social") social_sentiment self.

(** ** real_time_analyzer.py: [analyze_market] *)

(** [d[key] = value] on a dict given by its items: an existing key keeps
    its place, a new one goes to the end. *)
Fixpoint dict_set {V} (key : string) (value : V) (d : list (string * V))
  : list (string * V) :=
  match d with
  | [] => [(key, value)]
  | (k, v) :: rest =>
      if String.eqb k key then (k, value) :: rest
      else (k, v) :: dict_set key value rest
  end.

(** [max(signals, key=lambda x: x['timestamp'])] from a first candidate:
    a later element wins only with a strictly larger timestamp. *)
Fixpoint latest_of (best : MarketSignal) (rest : list MarketSignal)
  : MarketSignal :=
  match rest with
  | [] => best
  | s :: rest' =>
      latest_of (if timestamp best <? timestamp s then s else best) rest'
  end.

(** The sentiment entry of a token analysis. *)
Record SentimentView := mkView {
  sv_score : Q;
  sv_confidence : Q;
  sv_timestamp : datetime
}.

Definition view_of (reading : SentimentData Q) : SentimentView :=
  mkView (sentiment_score reading) (confidence reading) (sd_timestamp reading).

(** The analysis of one token; [ta_signals] keeps the signals themselves
    where the code keeps a dict of their fields. *)
Record TokenAnalysis := mkTokenAnalysis {
  ta_price_data : option PriceData;
  ta_signals : list MarketSignal;
  ta_news : option SentimentView;
  ta_social : option SentimentView;
  ta_technical_indicators : list (string * cell);
  ta_overall_signal : SignalType
}.

Record MarketOverview := mkOverview {
  total_signals : nat;
  mo_bullish_signals : nat;
  mo_bearish_signals : nat;
  market_sentiment : SignalType;
  mo_signal_strength : Q
}.

Section AnalyzeMarket.

(** [self.technical_indicators.add_all_indicators] *)
Variable technical_indicators : DataFrame -> DataFrame.

(** [self.data_service.get_recent_price_data(token, hours=24)]; [None]
    also stands for an exception, which [analyze_market] catches. *)
Variable get_recent_price_data : string -> option DataFrame.

(** The body of the loop [for token in tokens]. *)
Definition token_analysis (self : RealTimeAnalyzer) (tok : string)
  (include_sentiment include_technical : bool) (now : datetime)
  : TokenAnalysis :=
  let recent_signals :=
    List.filter
      (fun signal =>
         String.eqb (token signal) tok
         && (now - timedelta_hours 6 <? timestamp signal))
      (market_signals self) in
  let news :=
    if include_sentiment
    then option_map view_of (sentiment_cache self !! (tok +:+ "_news"))
    else None in
  let social :=
    if include_sentiment
    then option_map view_of (sentiment_cache self !! (tok +:+ "_social"))
    else None in
  let technical :=
    if include_technical then
      match get_recent_price_data tok with
      | Some historical_data =>
          if (20 <? nrows historical_data)%nat then
            let data_with_indicators := technical_indicators historical_data in
            if (nrows data_with_indicators =? 0)%nat then []
            else
              let latest :=
                row_get data_with_indicators
                  (nrows data_with_indicators - 1) in
              [ ("rsi", latest "rsi" 50%Q);
                ("macd", latest "macd" 0%Q);
                ("sma_20", latest "sma_20" 0%Q);
                ("sma_50", latest "sma_50" 0%Q);
                ("volatility", latest "volatility" 0%Q) ]%string
          else []
      | None => []
      end
    else [] in
  let composite_signals :=
    List.filter (fun s => String.eqb (source s) "composite") recent_signals in
  let overall :=
    match composite_signals with
    | [] => neutral
    | first :: rest => signal_type (latest_of first rest)
    end in
  mkTokenAnalysis (price_data_cache self !! tok) recent_signals news social
    technical overall.

End AnalyzeMarket.

(** What one turn of the loop [for token in tokens] of [analyze_market]
    reads.  The loop awaits the data service in every turn, so the
    collectors can run between two turns: every turn has its own state
    of the analyzer, its own clock reading and its own answer of the data
    service ([None] also stands for an exception, which the loop
    catches). *)
Record Turn := mkTurn {
  turn_self : RealTimeAnalyzer;
  turn_now : datetime;
  turn_history : option DataFrame
}.

(** The entry that turn [k] of the loop (counted from 0) builds for its
    token. *)
Definition turn_analysis (technical_indicators : DataFrame -> DataFrame)
  (turn : nat -> Turn) (include_sentiment include_technical : bool)
  (k : nat) (tok : string) : TokenAnalysis :=
  token_analysis technical_indicators (fun _ => turn_history (turn k))
    (turn_self (turn k)) tok include_sentiment include_technical
    (turn_now (turn k)).

(** The loop of [analyze_market] from turn [k] on:
    [analysis['tokens'][token] = token_analysis] for every token. *)
Fixpoint analysis_tokens (technical_indicators : DataFrame -> DataFrame)
  (turn : nat -> Turn) (include_sentiment include_technical : bool)
  (k : nat) (tokens : list string) (analysis : list (string * TokenAnalysis))
  : list (string * TokenAnalysis) :=
  match tokens with
  | [] => analysis
  | tok :: rest =>
      analysis_tokens technical_indicators turn include_sentiment
        include_technical (S k) rest
        (dict_set tok
           (turn_analysis technical_indicators turn include_sentiment
              include_technical k tok)
           analysis)
  end.

(** [analyze_market(tokens, include_sentiment, include_technical)]: the
    items of [analysis['tokens']] and [analysis['market_overview']]. *)
Definition analyze_market (technical_indicators : DataFrame -> DataFrame)
  (turn : nat -> Turn) (tokens : list string)
  (include_sentiment include_technical : bool)
  : list (string * TokenAnalysis) * MarketOverview :=
  let analysis_tokens :=
    analysis_tokens technical_indicators turn include_sentiment
      include_technical 0 tokens [] in
  let all_signals :=
    List.flat_map (fun item => ta_signals (snd item)) analysis_tokens in
  let bullish_signals :=
    List.length
      (List.filter (fun s => SignalType_eqb (signal_type s) bullish)
                   all_signals) in
  let bearish_signals :=
    List.length
      (List.filter (fun s => SignalType_eqb (signal_type s) bearish)
                   all_signals) in
  let sentiment :=
    if (bearish_signals <? bullish_signals)%nat then bullish
    else if (bullish_signals <? bearish_signals)%nat then bearish
    else neutral in
  let strength :=
    (inject_Z (Z.of_nat bullish_signals - Z.of_nat bearish_signals)
     / inject_Z (Z.of_nat (Nat.max 1 (List.length all_signals))))%Q in
  (analysis_tokens,
   mkOverview (List.length all_signals) bullish_signals bearish_signals
     sentiment strength).

(** The tokens of a list in the order of their first occurrence, after
    the keys already seen. *)
Fixpoint first_occurrences (seen tokens : list string) : list string :=
  match tokens with
  | [] => seen
  | tok :: rest =>
      first_occurrences
        (if List.existsb (String.eqb tok) seen then seen else seen ++ [tok])
        rest
  end.

(** ** The analyzer's contract, further vocabulary *)

(** A strength within the range the dataclass documents, and not zero. *)
Definition valid_strength (s : MarketSignal) : Prop :=
  (0 < strength s)%Q /\ (strength s <= 1)%Q.

(** A signal younger than the 24-hour retention window. *)
Definition fresh (now : datetime) (s : MarketSignal) : Prop :=
  now - timedelta_hours 24 < timestamp s.

(** Price sources for a scenario: CoinGecko raises for every token,
    Binance knows ETH only, CoinMarketCap returns nothing. *)
Definition coingecko_down (tok : string) : fetch_result := FetchFailed.

Definition binance_eth_only (tok : string) : fetch_result :=
  if String.eqb tok "ETH" then Fetched eth_volume_tripled else NoData.

Definition coinmarketcap_silent (tok : string) : fetch_result := NoData.

(** Two readings for a scenario. *)
Definition good_news : SentimentData Q :=
  mkSentiment 0 "ETH" 0.5%Q 0.9%Q "news" "ETH rallies".

Definition calm_crowd : SentimentData Q :=
  mkSentiment 0 "ETH" 0%Q 0.7%Q "social_simulation"
    "Simulated social sentiment for ETH".

(** A composite signal of [tok] that [analyze_market] can see: stamped
    within the last six hours. *)
Definition visible_composite (tok : string) (now : datetime)
  (s : MarketSignal) : Prop :=
  token s = tok /\ source s = "composite"%string
  /\ now - timedelta_hours 6 < timestamp s.

(** Two turns of the market analysis: the price collector has run
    between the first turn and the second one. *)
Definition two_turns (k : nat) : Turn :=
  match k with
  | O => mkTurn empty_analyzer 0 None
  | S _ => mkTurn after_price (minutes 1) None
  end.

(** * Properties *)

(** ** Python built-ins *)

Lemma Qltb_lt (a b : Q) : Qltb a b = true <-> (a < b)%Q.
Proof.
  unfold Qltb. rewrite negb_true_iff.
  destruct (Qle_bool b a) eqn:E.
  - apply Qle_bool_iff in E. split; [discriminate | intros H; lra].
  - split; [intros _ | reflexivity].
    apply Qnot_le_lt. intros H. apply Qle_bool_iff in H. congruence.
Qed.

Lemma Qltb_ge (a b : Q) : Qltb a b = false <-> (b <= a)%Q.
Proof.
  destruct (Qltb a b) eqn:E.
  - apply Qltb_lt in E. split; [discriminate | intros H; lra].
  - split; [intros _ | reflexivity].
    apply Qnot_lt_le. intros H. apply Qltb_lt in H. congruence.
Qed.

Lemma py_min_Qmin (a b : Q) : (py_min a b == Qmin a b)%Q.
Proof.
  unfold py_min. destruct (Qltb b a) eqn:E.
  - apply Qltb_lt in E. rewrite Q.min_r; [reflexivity | lra].
  - apply Qltb_ge in E. rewrite Q.min_l; [reflexivity | lra].
Qed.

Lemma py_max_Qmax (a b : Q) : (py_max a b == Qmax a b)%Q.
Proof.
  unfold py_max. destruct (Qltb a b) eqn:E.
  - apply Qltb_lt in E. rewrite Q.max_r; [reflexivity | lra].
  - apply Qltb_ge in E. rewrite Q.max_l; [reflexivity | lra].
Qed.

Lemma fold_left_Qplus (xs : list Q) (a : Q) :
  (fold_left Qplus xs a == a + fold_right Qplus 0 xs)%Q.
Proof.
  revert a. induction xs as [|x xs IH]; intros a; simpl.
  - lra.
  - rewrite IH. lra.
Qed.

Lemma py_sum_cons (x : Q) (xs : list Q) : (py_sum (x :: xs) == x + py_sum xs)%Q.
Proof.
  unfold py_sum. simpl. rewrite !fold_left_Qplus. lra.
Qed.

(** ** The composite fuser *)

Lemma SignalType_eqb_eq (a b : SignalType) : SignalType_eqb a b = true <-> a = b.
Proof. destruct a, b; simpl; split; intros H; congruence. Qed.

Lemma recent_signals_in (self : RealTimeAnalyzer) (tok : string)
  (now : datetime) (s : MarketSignal) :
  In s (recent_signals self tok now) <->
  In s (market_signals self) /\ token s = tok
  /\ now - timedelta_hours 1 < timestamp s.
Proof.
  unfold recent_signals. rewrite List.filter_In, andb_true_iff.
  rewrite String.eqb_eq, Z.ltb_lt. tauto.
Qed.

Lemma strength_of_cons (t : SignalType) (s : MarketSignal)
  (rest : list MarketSignal) :
  (strength_of t (s :: rest) ==
   (if SignalType_eqb (signal_type s) t then strength s else 0)
   + strength_of t rest)%Q.
Proof.
  unfold strength_of. simpl.
  destruct (SignalType_eqb (signal_type s) t); simpl.
  - apply py_sum_cons.
  - lra.
Qed.

Lemma strength_of_window (store : list MarketSignal) (tok : string)
  (now : datetime) (t : SignalType) :
  (strength_of t
     (List.filter
        (fun signal =>
           String.eqb (token signal) tok
           && (now - timedelta_hours 1 <? timestamp signal))
        store)
   == total_strength (fun s => bool_decide (in_window tok now t s)) store)%Q.
Proof.
  induction store as [|s rest IH]; simpl.
  - reflexivity.
  - unfold in_window at 1.
    destruct (String.eqb_spec (token s) tok) as [Htok|Htok];
      destruct (Z.ltb_spec (now - timedelta_hours 1) (timestamp s)) as [Hts|Hts];
      simpl; try rewrite strength_of_cons; rewrite IH;
      destruct (SignalType_eqb (signal_type s) t) eqn:Hty;
      try apply SignalType_eqb_eq in Hty;
      case_bool_decide as Hdec; try lra; exfalso.
    + apply Hdec. tauto.
    + destruct Hdec as (_ & _ & Heq). rewrite Heq in Hty.
      assert (SignalType_eqb t t = true) by (apply SignalType_eqb_eq; reflexivity).
      congruence.
    + destruct Hdec as (_ & Hlt & _). lia.
    + destruct Hdec as (_ & Hlt & _). lia.
    + tauto.
    + tauto.
    + tauto.
    + tauto.
Qed.

(** The data dict of a composite signal, entry by entry. *)
Lemma composite_signal_inv (self : RealTimeAnalyzer) (tok : string)
  (now : datetime) (sig : MarketSignal) :
  _generate_composite_signal self tok now = Some sig ->
  exists net score : Q,
    technical_score sig = Some (Some net)
    /\ combined_score sig = Some (Some (net + score)%Q)
    /\ net = (strength_of bullish (recent_signals self tok now)
              - strength_of bearish (recent_signals self tok now))%Q
    /\ score =
       (let score := 0%Q in
        let score :=
          match sentiment_cache self !! (tok +:+ "_news") with
          | Some news => (score + sentiment_score news * 0.6)%Q
          | None => score
          end in
        match sentiment_cache self !! (tok +:+ "_social") with
        | Some social => (score + sentiment_score social * 0.4)%Q
        | None => score
        end)
    /\ source sig = "composite"%string
    /\ token sig = tok
    /\ timestamp sig = now
    /\ (signal_type sig, strength sig) =
       (if Qltb 0.3 (net + score) then (bullish, py_min 1 (net + score))
        else if Qltb (net + score) (-0.3) then
          (bearish, py_min 1 (Qabs (net + score)))
        else (neutral, 0.5%Q)).
Proof.
  unfold _generate_composite_signal.
  destruct (recent_signals self tok now) as [|s0 rest] eqn:Hrecent;
    [discriminate|].
  set (net := (strength_of bullish (s0 :: rest)
               - strength_of bearish (s0 :: rest))%Q).
  set (score := match sentiment_cache self !! (tok +:+ "_social") with
                | Some social => _
                | None => _
                end).
  intros Hsome. exists net, score.
  destruct (Qltb 0.3 (net + score)) eqn:Hup;
    [|destruct (Qltb (net + score) (-0.3)) eqn:Hdown];
    injection Hsome as <-; simpl; repeat split; reflexivity.
Qed.

Example after_price_store :
  market_signals after_price =
  [ mkSignal 0 "ETH" bullish (py_min 1 (Qabs 10 / 20)) "price_movement"
      [ ("change_24h", Some 10%Q); ("volume_24h", Some 1000000%Q) ]%string ].
Proof. reflexivity. Qed.

(** C1 (as stated) fails: a composite signal written by the previous
    fusion cycle is still in the one-hour window of the next cycle and its
    strength is added to [net_technical].  After a price signal of strength
    1/2 and one fusion, the second fusion reports a technical score of 1,
    whereas the raw signals of the window add up to 1/2. *)
Lemma composite_feeds_next_fusion :
  exists sig net,
    _generate_composite_signal after_fusion "ETH" (minutes 10) = Some sig
    /\ technical_score sig = Some (Some net)
    /\ (net == 1)%Q
    /\ (net_technical_of_raw (market_signals after_fusion) "ETH" (minutes 10)
        == 1 # 2)%Q
    /\ ~ (net
          == net_technical_of_raw (market_signals after_fusion) "ETH"
               (minutes 10))%Q.
Proof.
  eexists. eexists.
  split; [vm_compute; reflexivity|].
  split; [vm_compute; reflexivity|].
  split; [vm_compute; reflexivity|].
  split; [vm_compute; reflexivity|].
  vm_compute. discriminate.
Qed.

(** C1 (amended).  The technical score of a composite signal is the sum of
    the strengths of the bullish signals minus the sum of the strengths of
    the bearish signals, both taken over every signal of the asset stamped
    within the last hour, whatever its source tag. *)
Theorem composite_net_technical (self : RealTimeAnalyzer) (tok : string)
  (now : datetime) (sig : MarketSignal) :
  _generate_composite_signal self tok now = Some sig ->
  exists net : Q,
    technical_score sig = Some (Some net)
    /\ (net == net_technical_of_window (market_signals self) tok now)%Q.
Proof.
  intros Hsig.
  destruct (composite_signal_inv _ _ _ _ Hsig) as (net & score & Hnet & _ & -> & _).
  exists (strength_of bullish (recent_signals self tok now)
          - strength_of bearish (recent_signals self tok now))%Q.
  split; [exact Hnet|].
  unfold net_technical_of_window, recent_signals.
  rewrite !strength_of_window. reflexivity.
Qed.

Lemma composite_net_technical_witness :
  exists sig net,
    _generate_composite_signal after_fusion "ETH" (minutes 10) = Some sig
    /\ technical_score sig = Some (Some net)
    /\ (net == net_technical_of_window (market_signals after_fusion) "ETH"
                 (minutes 10))%Q.
Proof.
  eexists.
  assert (H : _generate_composite_signal after_fusion "ETH" (minutes 10)
              = Some _) by (vm_compute; reflexivity).
  destruct (composite_net_technical _ _ _ _ H) as (net & Hnet & Heq).
  exists net. split; [exact H|]. split; [exact Hnet | exact Heq].
Defined.

(** C4.  The composite signal is classified by its combined score:
    above 0.3 it is bullish with strength [min(1, combined)], below -0.3 it
    is bearish with strength [min(1, |combined|)], and in between it is
    neutral with strength 0.5.  With a technical score of 0.5 and no
    sentiment reading for the asset, the signal is bullish with strength
    0.5. *)
Theorem composite_classification (self : RealTimeAnalyzer) (tok : string)
  (now : datetime) (sig : MarketSignal) :
  _generate_composite_signal self tok now = Some sig ->
  exists combined : Q,
    combined_score sig = Some (Some combined)
    /\ ((0.3 < combined)%Q ->
        signal_type sig = bullish /\ (strength sig == Qmin 1 combined)%Q)
    /\ ((combined < -0.3)%Q ->
        signal_type sig = bearish
        /\ (strength sig == Qmin 1 (Qabs combined))%Q)
    /\ ((-0.3 <= combined)%Q /\ (combined <= 0.3)%Q ->
        signal_type sig = neutral /\ strength sig = 0.5%Q)
    /\ (forall net : Q,
          technical_score sig = Some (Some net) ->
          (net == 0.5)%Q ->
          sentiment_cache self !! (tok +:+ "_news") = None ->
          sentiment_cache self !! (tok +:+ "_social") = None ->
          signal_type sig = bullish /\ (strength sig == 0.5)%Q).
Proof.
  intros Hsig.
  destruct (composite_signal_inv _ _ _ _ Hsig)
    as (net & score & Hnet & Hcomb & _ & Hscore & _ & _ & _ & Hclass).
  exists (net + score)%Q. split; [exact Hcomb|].
  assert (Hup : (0.3 < net + score)%Q ->
                signal_type sig = bullish
                /\ (strength sig == Qmin 1 (net + score))%Q).
  { intros Hlt. apply Qltb_lt in Hlt. rewrite Hlt in Hclass.
    injection Hclass as -> ->. split; [reflexivity | apply py_min_Qmin]. }
  split; [exact Hup|].
  split; [|split].
  - intros Hlt.
    assert (Hge : Qltb 0.3 (net + score) = false) by (apply Qltb_ge; lra).
    apply Qltb_lt in Hlt. rewrite Hge, Hlt in Hclass.
    injection Hclass as -> ->. split; [reflexivity | apply py_min_Qmin].
  - intros [Hlo Hhi].
    apply Qltb_ge in Hhi. apply Qltb_ge in Hlo. rewrite Hhi, Hlo in Hclass.
    injection Hclass as -> ->. split; reflexivity.
  - intros net' Hnet' Hhalf Hnews Hsocial.
    rewrite Hnet in Hnet'. injection Hnet' as <-.
    rewrite Hnews, Hsocial in Hscore. simpl in Hscore. subst score.
    destruct Hup as [Hty Hstr]; [lra|].
    split; [exact Hty|].
    rewrite Hstr. rewrite Q.min_r; lra.
Qed.

Lemma composite_classification_witness :
  exists sig,
    _generate_composite_signal after_price "ETH" (minutes 5) = Some sig
    /\ signal_type sig = bullish /\ (strength sig == 0.5)%Q.
Proof.
  eexists.
  assert (H : _generate_composite_signal after_price "ETH" (minutes 5)
              = Some _) by (vm_compute; reflexivity).
  split; [exact H|].
  destruct (composite_classification _ _ _ _ H) as (c & _ & _ & _ & _ & Hhalf).
  apply (Hhalf (10 # 20)%Q).
  - vm_compute. reflexivity.
  - reflexivity.
  - reflexivity.
  - reflexivity.
Defined.

(** C5.  When the store holds no signal of the asset stamped within the
    last hour, the fuser returns nothing for the asset and the fusion step
    leaves the analyzer, and so its signal store, as it was. *)
Theorem fuse_without_recent_signals (self : RealTimeAnalyzer) (tok : string)
  (now : datetime) :
  (forall s, In s (market_signals self) -> token s = tok ->
             timestamp s <= now - timedelta_hours 1) ->
  _generate_composite_signal self tok now = None
  /\ fuse self tok now = self
  /\ market_signals (fuse self tok now) = market_signals self.
Proof.
  intros Hold.
  assert (Hrecent : recent_signals self tok now = []).
  { destruct (recent_signals self tok now) as [|s rest] eqn:E; [reflexivity|].
    assert (Hin : In s (recent_signals self tok now)) by (rewrite E; left; reflexivity).
    apply recent_signals_in in Hin. destruct Hin as (Hin & Htok & Hts).
    specialize (Hold s Hin Htok). lia. }
  assert (Hnone : _generate_composite_signal self tok now = None).
  { unfold _generate_composite_signal. rewrite Hrecent. reflexivity. }
  unfold fuse. rewrite Hnone. auto.
Qed.

Lemma fuse_without_recent_signals_witness :
  _generate_composite_signal after_price "ETH" (minutes 90) = None
  /\ fuse after_price "ETH" (minutes 90) = after_price
  /\ market_signals (fuse after_price "ETH" (minutes 90))
     = market_signals after_price.
Proof.
  apply fuse_without_recent_signals.
  intros s [<-|[]] _. vm_compute. discriminate.
Defined.

(** ** The price collector and the signal store *)

(** The analysis that follows a price fetch reads back the entry the
    collector has just written. *)
Lemma collector_reads_own_entry (self : RealTimeAnalyzer) (tok : string)
  (price_data : PriceData) :
  price_data_cache (set_price_data tok price_data self) !! tok
  = Some price_data.
Proof. unfold set_price_data. simpl. apply lookup_insert_eq. Qed.

Lemma no_volume_doubles_itself (v : Q) : Qltb 0 v && Qltb (v * 2) v = false.
Proof.
  destruct (Qltb 0 v) eqn:Hpos; [|reflexivity].
  apply Qltb_lt in Hpos. simpl. apply Qltb_ge. lra.
Qed.

(** C3 (code defect).  [_price_data_collector] stores the fresh price data
    in the cache before it calls [_analyze_price_movement], so the
    "previous" volume the analysis reads is the current one and the
    volume-spike rule can never fire: no run of the collector emits a
    [volume_spike] signal.  With a cached volume of 1000000 and a fresh
    volume of 3000000 the store is left as it was, although the rule, read
    against the cache of the previous cycle, asks for a bullish signal of
    strength 0.6. *)
Theorem volume_spike_never_emitted :
  (forall self tok price_data now,
      Forall (fun s => source s <> "volume_spike"%string)
        (price_movement_signals (set_price_data tok price_data self) tok
           price_data now))
  /\ (Qltb 0 (pd_volume_24h eth_rally)
      && Qltb (pd_volume_24h eth_rally * 2) (pd_volume_24h eth_volume_tripled)
      = true
      /\ price_data_cache after_price !! "ETH"%string = Some eth_rally
      /\ market_signals
           (collect_price after_price "ETH" (Some eth_volume_tripled) (minutes 1))
         = market_signals after_price)
  /\ price_movement_signals after_price "ETH" eth_volume_tripled (minutes 1)
     = [ mkSignal (minutes 1) "ETH" bullish 0.6%Q "volume_spike"
           [ ("volume_increase"%string,
              Some (pd_volume_24h eth_volume_tripled / pd_volume_24h eth_rally)%Q) ] ].
Proof.
  split; [|split; [split; [|split]|]]; try (vm_compute; reflexivity).
  intros self tok price_data now. unfold price_movement_signals.
  rewrite collector_reads_own_entry, no_volume_doubles_itself.
  destruct (Qltb 5 (Qabs (pd_change_24h price_data))); simpl.
  - constructor; [simpl; discriminate | constructor].
  - constructor.
Qed.

(** The pruning of [_analyze_price_movement]: what it leaves in the store
    is younger than 24 hours. *)
Lemma analyze_price_movement_prunes (self : RealTimeAnalyzer) (tok : string)
  (price_data : PriceData) (now : datetime) :
  Forall (fun s => now - timedelta_hours 24 < timestamp s)
         (market_signals (_analyze_price_movement self tok price_data now)).
Proof.
  unfold _analyze_price_movement. simpl.
  apply List.Forall_forall. intros s Hin.
  apply List.filter_In in Hin. destruct Hin as [_ Hts].
  apply Z.ltb_lt in Hts. exact Hts.
Qed.

(** C2 (code defect).  Only the price-movement insert prunes.  The
    technical-signal insert and the composite-signal insert append to the
    store and filter nothing: when no price data has arrived for 25 hours,
    the raw price-movement signal stamped at time 0 is still in the store
    after the technical insert at hour 25 and after the composite insert
    five minutes later. *)
Theorem stale_signal_survives_inserts :
  let stale :=
    mkSignal 0 "ETH" bullish (py_min 1 (Qabs 10 / 20)) "price_movement"
      [ ("change_24h", Some 10%Q); ("volume_24h", Some 1000000%Q) ]%string in
  (List.length (market_signals after_technical)
   = S (List.length (market_signals after_price))
   /\ In stale (market_signals after_technical)
   /\ timestamp stale < timedelta_hours 25 - timedelta_hours 24)
  /\ (List.length (market_signals after_late_fusion)
      = S (List.length (market_signals after_technical))
      /\ In stale (market_signals after_late_fusion)
      /\ timestamp stale
         < timedelta_hours 25 + minutes 5 - timedelta_hours 24)
  /\ source stale <> "composite"%string.
Proof.
  cbv zeta.
  split; [|split].
  - split; [vm_compute; reflexivity|]. split; [left; vm_compute; reflexivity|].
    vm_compute. reflexivity.
  - split; [vm_compute; reflexivity|]. split; [left; vm_compute; reflexivity|].
    vm_compute. reflexivity.
  - discriminate.
Qed.

(** ** Columns *)

Lemma zip_with_length {A B C} (f : A -> B -> C) (xs : list A) (ys : list B) :
  List.length xs = List.length ys ->
  List.length (zip_with f xs ys) = List.length xs.
Proof.
  intros Hlen. unfold zip_with.
  rewrite List.length_map, List.length_combine, Hlen. apply Nat.min_id.
Qed.

Lemma zip_with_nth {A B C} (f : A -> B -> C) (xs : list A) (ys : list B)
  (i : nat) (dx : A) (dy : B) (d : C) :
  List.length xs = List.length ys -> (i < List.length xs)%nat ->
  List.nth i (zip_with f xs ys) d = f (List.nth i xs dx) (List.nth i ys dy).
Proof.
  intros Hlen Hi. unfold zip_with.
  rewrite (List.nth_indep _ d (f dx dy)).
  - rewrite (List.map_nth (fun p => f (fst p) (snd p)) _ (dx, dy)).
    rewrite List.combine_nth by exact Hlen. reflexivity.
  - rewrite List.length_map, List.length_combine, Hlen, Nat.min_id.
    rewrite <- Hlen. exact Hi.
Qed.

Lemma removelast_length {A} (xs : list A) :
  List.length (List.removelast xs) = Nat.pred (List.length xs).
Proof.
  rewrite List.removelast_firstn_len, List.length_firstn. lia.
Qed.

Lemma removelast_nth {A} (xs : list A) (i : nat) (d : A) :
  (S i < List.length xs)%nat ->
  List.nth i (List.removelast xs) d = List.nth i xs d.
Proof.
  intros Hi. rewrite List.removelast_firstn_len, List.nth_firstn.
  destruct (Nat.ltb_spec i (Nat.pred (List.length xs))); [reflexivity | lia].
Qed.

Lemma shift1_length (xs : column) : List.length (shift1 xs) = List.length xs.
Proof.
  destruct xs as [|x xs]; [reflexivity|].
  unfold shift1. cbn [List.length]. rewrite removelast_length. reflexivity.
Qed.

(** The warm-up row of [shift(1)]. *)
Lemma shift1_first (xs : column) : List.nth 0 (shift1 xs) nan = nan.
Proof. destruct xs; reflexivity. Qed.

Lemma shift1_next (xs : column) (i : nat) :
  (S i < List.length xs)%nat ->
  List.nth (S i) (shift1 xs) nan = List.nth i xs nan.
Proof.
  intros Hi. destruct xs as [|x xs]; [simpl in Hi; lia|].
  transitivity (List.nth i (List.removelast (x :: xs)) nan);
    [reflexivity | apply removelast_nth; exact Hi].
Qed.

Lemma np_roll1_snoc {A} (xs : list A) (x : A) : np_roll1 (xs ++ [x]) = x :: xs.
Proof.
  unfold np_roll1. destruct (xs ++ [x]) as [|y ys] eqn:E.
  - destruct xs; discriminate.
  - rewrite <- E, List.last_last, List.removelast_last. reflexivity.
Qed.

Lemma rolling_sum_length (n : nat) (xs : column) :
  List.length (rolling_sum n xs) = List.length xs.
Proof. unfold rolling_sum. rewrite List.length_map, List.length_seq. reflexivity. Qed.

(** ** MACD crossover flags *)

Lemma cross_up_nth (a b : column) (i : nat) :
  List.length a = List.length b -> (i < List.length a)%nat ->
  List.nth i (cross_up a b) false
  = cell_gt (List.nth i a nan) (List.nth i b nan)
    && cell_le (List.nth i (shift1 a) nan) (List.nth i (shift1 b) nan).
Proof.
  intros Hlen Hi. unfold cross_up.
  rewrite (zip_with_nth andb _ _ i false false).
  - rewrite (zip_with_nth cell_gt a b i nan nan) by assumption.
    rewrite (zip_with_nth cell_le _ _ i nan nan);
      rewrite ?shift1_length; auto.
  - rewrite !zip_with_length; rewrite ?shift1_length; auto.
  - rewrite zip_with_length; auto.
Qed.

Lemma cross_down_nth (a b : column) (i : nat) :
  List.length a = List.length b -> (i < List.length a)%nat ->
  List.nth i (cross_down a b) false
  = cell_lt (List.nth i a nan) (List.nth i b nan)
    && cell_ge (List.nth i (shift1 a) nan) (List.nth i (shift1 b) nan).
Proof.
  intros Hlen Hi. unfold cross_down.
  rewrite (zip_with_nth andb _ _ i false false).
  - rewrite (zip_with_nth cell_lt a b i nan nan) by assumption.
    rewrite (zip_with_nth cell_ge _ _ i nan nan);
      rewrite ?shift1_length; auto.
  - rewrite !zip_with_length; rewrite ?shift1_length; auto.
  - rewrite zip_with_length; auto.
Qed.

Lemma cell_cmp_true (r : Q -> Q -> bool) (a b : cell) :
  cell_cmp r a b = true <-> exists x y, a = Some x /\ b = Some y /\ r x y = true.
Proof.
  destruct a as [x|], b as [y|]; simpl; split;
    try discriminate; try (intros (x' & y' & H1 & H2 & _); discriminate).
  - intros H. exists x, y. auto.
  - intros (x' & y' & [= <-] & [= <-] & H). exact H.
Qed.

Lemma cross_up_spec (a b : column) (i : nat) :
  List.length a = List.length b -> (i < List.length a)%nat ->
  List.nth i (cross_up a b) false = true <-> crosses_above a b i.
Proof.
  intros Hlen Hi. rewrite cross_up_nth by assumption.
  rewrite andb_true_iff. unfold cell_gt, cell_le, crosses_above.
  rewrite !cell_cmp_true. split.
  - intros [(x & y & Ha & Hb & Hgt) (x' & y' & Ha' & Hb' & Hle)].
    destruct i as [|j]; [rewrite shift1_first in Ha'; discriminate|].
    rewrite shift1_next in Ha' by exact Hi.
    rewrite shift1_next in Hb' by (rewrite <- Hlen; exact Hi).
    exists j, x, y, x', y'. apply Qltb_lt in Hgt. apply Qle_bool_iff in Hle.
    auto 10.
  - intros (j & x & y & x' & y' & -> & Ha & Hb & Hgt & Ha' & Hb' & Hle).
    split.
    + exists x, y. apply Qltb_lt in Hgt. auto.
    + exists x', y'. rewrite shift1_next by exact Hi.
      rewrite shift1_next by (rewrite <- Hlen; exact Hi).
      apply Qle_bool_iff in Hle. auto.
Qed.

Lemma cross_down_spec (a b : column) (i : nat) :
  List.length a = List.length b -> (i < List.length a)%nat ->
  List.nth i (cross_down a b) false = true <-> crosses_below a b i.
Proof.
  intros Hlen Hi. rewrite cross_down_nth by assumption.
  rewrite andb_true_iff. unfold cell_lt, cell_ge, crosses_below.
  rewrite !cell_cmp_true. split.
  - intros [(x & y & Ha & Hb & Hlt) (x' & y' & Ha' & Hb' & Hge)].
    destruct i as [|j]; [rewrite shift1_first in Ha'; discriminate|].
    rewrite shift1_next in Ha' by exact Hi.
    rewrite shift1_next in Hb' by (rewrite <- Hlen; exact Hi).
    exists j, x, y, x', y'. apply Qltb_lt in Hlt. apply Qle_bool_iff in Hge.
    auto 10.
  - intros (j & x & y & x' & y' & -> & Ha & Hb & Hlt & Ha' & Hb' & Hge).
    split.
    + exists x, y. apply Qltb_lt in Hlt. auto.
    + exists x', y'. rewrite shift1_next by exact Hi.
      rewrite shift1_next by (rewrite <- Hlen; exact Hi).
      apply Qle_bool_iff in Hge. auto.
Qed.

Example rising_macd_flags :
  macd_bullish_cross rising_macd flat_signal
  = List.repeat false 10 ++ [true; false]
  /\ macd_bearish_cross rising_macd flat_signal = List.repeat false 12.
Proof. split; vm_compute; reflexivity. Qed.

(** C7.  On every bar of a series, [macd_bullish_cross] is true exactly
    when [macd > macd_signal] holds on the bar and [macd <= macd_signal]
    held on the previous bar, and false on every other bar;
    [macd_bearish_cross] is its mirror image.  A series whose only
    crossover is at index 10 has [macd_bullish_cross] true at index 10 and
    false at every other index. *)
Theorem macd_cross_flags (macd macd_signal : column) :
  List.length macd = List.length macd_signal ->
  List.length (macd_bullish_cross macd macd_signal) = List.length macd
  /\ List.length (macd_bearish_cross macd macd_signal) = List.length macd
  /\ (forall i, (i < List.length macd)%nat ->
        (List.nth i (macd_bullish_cross macd macd_signal) false = true
         <-> crosses_above macd macd_signal i)
        /\ (List.nth i (macd_bearish_cross macd macd_signal) false = true
            <-> crosses_below macd macd_signal i))
  /\ (crosses_above macd macd_signal 10 ->
      (forall i, i <> 10%nat -> ~ crosses_above macd macd_signal i) ->
      forall i, (i < List.length macd)%nat ->
        List.nth i (macd_bullish_cross macd macd_signal) false
        = (i =? 10)%nat).
Proof.
  intros Hlen. unfold macd_bullish_cross, macd_bearish_cross.
  assert (Hshift : List.length (shift1 macd) = List.length (shift1 macd_signal))
    by (rewrite !shift1_length; exact Hlen).
  split; [|split; [|split]].
  - unfold cross_up. rewrite !zip_with_length; auto.
    rewrite !zip_with_length; rewrite ?shift1_length; auto.
  - unfold cross_down. rewrite !zip_with_length; auto.
    rewrite !zip_with_length; rewrite ?shift1_length; auto.
  - intros i Hi. split.
    + apply cross_up_spec; assumption.
    + apply cross_down_spec; assumption.
  - intros Hten Hother i Hi.
    destruct (Nat.eqb_spec i 10) as [->|Hne].
    + apply cross_up_spec; assumption.
    + apply not_true_is_false. intros Hflag.
      apply (Hother i Hne). apply cross_up_spec; assumption.
Qed.

Lemma macd_cross_flags_witness :
  crosses_above rising_macd flat_signal 10
  /\ List.nth 9 (macd_bullish_cross rising_macd flat_signal) false = false.
Proof.
  assert (Hlen : List.length rising_macd = List.length flat_signal)
    by reflexivity.
  destruct (macd_cross_flags rising_macd flat_signal Hlen)
    as (_ & _ & Hspec & Hsingle).
  assert (Hten : crosses_above rising_macd flat_signal 10).
  { apply (Hspec 10%nat); [vm_compute; lia | vm_compute; reflexivity]. }
  split; [exact Hten|].
  apply (Hsingle Hten); [|vm_compute; lia].
  intros i Hne Hcross. apply Hne.
  assert (Hi : (i < List.length rising_macd)%nat).
  { destruct Hcross as (j & x & y & x' & y' & _ & Ha & _).
    destruct (Nat.lt_ge_cases i (List.length rising_macd)) as [H|H]; [exact H|].
    rewrite List.nth_overflow in Ha by exact H. discriminate. }
  apply (Hspec i Hi) in Hcross.
  do 12 (destruct i as [|i]; [try reflexivity; vm_compute in Hcross; discriminate|]).
  vm_compute in Hi. lia.
Defined.

(** ** Pivot points *)

(** Row 0 of the pivot column is built from the last bar of the series:
    [np.roll] wraps around. *)
Lemma pivot_first_row_wraps (highs lows closes : column) (h l c : Q) :
  exists pivot,
    dict_get "pivot"
      (_calculate_pivot_points (highs ++ [Some h]) (lows ++ [Some l])
         (closes ++ [Some c])) = Some pivot
    /\ List.nth 0 pivot nan = Some ((h + l + c) / 3)%Q.
Proof.
  unfold _calculate_pivot_points. rewrite !np_roll1_snoc.
  eexists. split; reflexivity.
Qed.

(** C6 (code defect).  The pivot-point family is not null on the leading
    row.  [prev_high], [prev_low] and [prev_close] are taken with [np.roll],
    which moves the last bar to row 0, so on a series of three bars the
    pivot of row 0 is computed from bar 2 (high 11, low 10, close 21/2) and
    each of the seven levels has a value on row 0. *)
Theorem pivot_points_defined_on_first_row :
  (exists pivot v,
      dict_get "pivot"
        (_calculate_pivot_points three_highs three_lows three_closes)
      = Some pivot
      /\ List.nth 0 pivot nan = Some v
      /\ (v == (11 + 10 + 10.5) / 3)%Q)
  /\ Forall (fun level => List.nth 0 (snd level) nan <> nan)
       (_calculate_pivot_points three_highs three_lows three_closes)
  /\ List.length (_calculate_pivot_points three_highs three_lows three_closes)
     = 7%nat.
Proof.
  split; [|split].
  - destruct (pivot_first_row_wraps [Some 10%Q; Some 12%Q] [Some 8%Q; Some 9%Q]
                [Some 9%Q; Some 11%Q] 11 10 10.5) as (pivot & Hget & Hrow).
    exists pivot. eexists. split; [exact Hget|]. split; [exact Hrow|].
    reflexivity.
  - vm_compute. repeat constructor; discriminate.
  - reflexivity.
Qed.

(** ** Chaikin Money Flow *)

Lemma np_broadcast_same {A B C} (f : A -> B -> C) (xs : list A) (ys : list B) :
  List.length xs = List.length ys ->
  np_broadcast f xs ys = Some (zip_with f xs ys).
Proof.
  intros Hlen. unfold np_broadcast. rewrite Hlen, Nat.eqb_refl. reflexivity.
Qed.

Lemma series_div_same (a b : column) :
  List.length a = List.length b -> series_div a b = zip_with cell_div a b.
Proof.
  revert b. induction a as [|x a IH]; intros [|y b] Hlen;
    try discriminate; [reflexivity|].
  injection Hlen as Hlen. cbn [series_div]. rewrite (IH b Hlen). reflexivity.
Qed.

(** On the columns of one frame the money-flow volume is computed without
    an exception, row by row; the mask decides the row of a flat bar. *)
Lemma money_flow_volume_rows (high low close volume : column) :
  List.length low = List.length high ->
  List.length close = List.length high ->
  List.length volume = List.length high ->
  exists mfv,
    money_flow_volume high low close volume = Some mfv
    /\ List.length mfv = List.length high
    /\ forall i, (i < List.length high)%nat ->
         List.nth i mfv nan
         = if cell_eq (List.nth i high nan) (List.nth i low nan) then Some 0%Q
           else cell_mul
                  (cell_div
                     (cell_sub
                        (cell_sub (List.nth i close nan) (List.nth i low nan))
                        (cell_sub (List.nth i high nan) (List.nth i close nan)))
                     (cell_sub (List.nth i high nan) (List.nth i low nan)))
                  (List.nth i volume nan).
Proof.
  intros Hl Hc Hv. unfold money_flow_volume, np_where.
  rewrite (np_broadcast_same cell_sub close low) by congruence.
  cbn [mbind option_bind].
  rewrite (np_broadcast_same cell_sub high close) by congruence.
  cbn [mbind option_bind].
  rewrite (np_broadcast_same cell_sub (zip_with cell_sub close low))
    by (rewrite !zip_with_length; congruence).
  cbn [mbind option_bind].
  rewrite (np_broadcast_same cell_sub high low) by congruence.
  cbn [mbind option_bind].
  rewrite (np_broadcast_same cell_div)
    by (repeat (rewrite zip_with_length; try congruence)).
  cbn [mbind option_bind].
  rewrite (np_broadcast_same cell_mul)
    by (repeat (rewrite zip_with_length; try congruence)).
  cbn [mbind option_bind].
  rewrite (np_broadcast_same cell_eq high low) by congruence.
  cbn [mbind option_bind].
  rewrite np_broadcast_same
    by (repeat (rewrite zip_with_length; try congruence)).
  eexists. split; [reflexivity|]. split.
  - repeat (rewrite zip_with_length; try congruence).
  - intros i Hi.
    assert (Hil : (i < List.length low)%nat) by congruence.
    assert (Hic : (i < List.length close)%nat) by congruence.
    rewrite (zip_with_nth _ _ _ i false nan);
      [| repeat (rewrite zip_with_length; try congruence)
       | rewrite zip_with_length; congruence ].
    rewrite (zip_with_nth cell_eq high low i nan nan) by congruence.
    destruct (cell_eq (List.nth i high nan) (List.nth i low nan));
      [reflexivity|].
    rewrite (zip_with_nth cell_mul _ _ i nan nan);
      [| repeat (rewrite zip_with_length; try congruence)
       | repeat (rewrite zip_with_length; try congruence) ].
    rewrite (zip_with_nth cell_div _ _ i nan nan);
      [| repeat (rewrite zip_with_length; try congruence)
       | repeat (rewrite zip_with_length; try congruence) ].
    rewrite (zip_with_nth cell_sub _ _ i nan nan);
      [| repeat (rewrite zip_with_length; try congruence)
       | repeat (rewrite zip_with_length; try congruence) ].
    rewrite (zip_with_nth cell_sub close low i nan nan) by congruence.
    rewrite (zip_with_nth cell_sub high close i nan nan) by congruence.
    rewrite (zip_with_nth cell_sub high low i nan nan) by congruence.
    reflexivity.
Qed.

Lemma flat_bar_cell_eq (high low : column) (i : nat) :
  flat_bar high low i
  <-> cell_eq (List.nth i high nan) (List.nth i low nan) = true.
Proof.
  unfold flat_bar, cell_eq. rewrite cell_cmp_true.
  split; intros (h & l & Hh & Hl & Heq); exists h, l;
    (split; [exact Hh|split; [exact Hl|]]); apply Qeq_bool_iff; exact Heq.
Qed.

(** The division of a flat bar, before the mask: no value, no error. *)
Lemma flat_bar_division (x h l : Q) :
  (h == l)%Q -> cell_div (Some x) (cell_sub (Some h) (Some l)) = nan.
Proof.
  intros Heq. simpl.
  assert (Hz : Qeq_bool (h - l) 0 = true) by (apply Qeq_bool_iff; lra).
  rewrite Hz. reflexivity.
Qed.

Lemma nth_all_equal {A} (xs : list A) (x d : A) :
  (forall i, (i < List.length xs)%nat -> List.nth i xs d = x) ->
  xs = List.repeat x (List.length xs).
Proof.
  induction xs as [|y xs IH]; intros Hall; [reflexivity|].
  cbn [List.length List.repeat]. f_equal.
  - apply (Hall 0%nat). simpl. lia.
  - apply IH. intros i Hi. apply (Hall (S i)). simpl. lia.
Qed.

(** A frame whose shapes do not fit takes the [except] branch: one null
    cell per close. *)
Example chaikin_money_flow_shape_error :
  _chaikin_money_flow exact_rolling_sum
    [Some 7; Some 8; Some 9]%Q [Some 5; Some 6]%Q
    [Some 6; Some 7; Some 8]%Q [Some 100; Some 100; Some 100]%Q 2
  = [nan; nan; nan].
Proof. reflexivity. Qed.

(** C9.  On the columns of a frame (one length), whatever their cells
    (flat bars, zero volumes and null cells included), and with rolling
    sums that pandas returns for every series, the [try] block of
    [_chaikin_money_flow] ends without an exception and the function
    returns its value, not the all-null column of the [except] branch:
    row by row the quotient of the two rolling sums.  The series handed
    to the first rolling sum holds exactly 0 on every flat bar
    ([high == low]), so a frame of flat bars hands over a series of
    zeros; and on a row where that rolling sum is 0 and the rolling
    volume is a non-zero value, the Chaikin Money Flow is 0. *)
Theorem chaikin_money_flow_flat_bars
  (pd_rolling_sum : nat -> column -> option column)
  (high low close volume : column) (period : nat) :
  List.length low = List.length high ->
  List.length close = List.length high ->
  List.length volume = List.length high ->
  (forall xs, exists sums,
      pd_rolling_sum period xs = Some sums
      /\ List.length sums = List.length xs) ->
  exists mfv sum_mfv sum_volume : column,
    money_flow_volume high low close volume = Some mfv
    /\ List.length mfv = List.length high
    /\ (forall j, (j < List.length high)%nat -> flat_bar high low j ->
          List.nth j mfv nan = Some 0%Q)
    /\ ((forall j, (j < List.length high)%nat -> flat_bar high low j) ->
        mfv = List.repeat (Some 0%Q) (List.length high))
    /\ pd_rolling_sum period mfv = Some sum_mfv
    /\ pd_rolling_sum period volume = Some sum_volume
    /\ chaikin_money_flow_try pd_rolling_sum high low close volume period
       = Some (_chaikin_money_flow pd_rolling_sum high low close volume period)
    /\ List.length
         (_chaikin_money_flow pd_rolling_sum high low close volume period)
       = List.length high
    /\ (forall i, (i < List.length high)%nat ->
          List.nth i
            (_chaikin_money_flow pd_rolling_sum high low close volume period)
            nan
          = cell_div (List.nth i sum_mfv nan) (List.nth i sum_volume nan))
    /\ (forall i a b, (i < List.length high)%nat ->
          List.nth i sum_mfv nan = Some a -> (a == 0)%Q ->
          List.nth i sum_volume nan = Some b -> ~ (b == 0)%Q ->
          exists q,
            List.nth i
              (_chaikin_money_flow pd_rolling_sum high low close volume
                 period) nan
            = Some q
            /\ (q == 0)%Q).
Proof.
  intros Hl Hc Hv Hlib.
  destruct (money_flow_volume_rows high low close volume Hl Hc Hv)
    as (mfv & Hmfv & Hlen & Hrows).
  destruct (Hlib mfv) as (sum_mfv & Hsm & Hsm_len).
  destruct (Hlib volume) as (sum_volume & Hsv & Hsv_len).
  assert (Hflat : forall j, (j < List.length high)%nat -> flat_bar high low j ->
            List.nth j mfv nan = Some 0%Q).
  { intros j Hj Hbar. rewrite (Hrows j Hj).
    apply flat_bar_cell_eq in Hbar. rewrite Hbar. reflexivity. }
  assert (Htry : chaikin_money_flow_try pd_rolling_sum high low close volume
                   period
                 = Some (zip_with cell_div sum_mfv sum_volume)).
  { unfold chaikin_money_flow_try. rewrite Hmfv. cbn [mbind option_bind].
    rewrite Hsm. cbn [mbind option_bind]. rewrite Hsv.
    cbn [mbind option_bind]. rewrite series_div_same by congruence.
    reflexivity. }
  assert (Hout : _chaikin_money_flow pd_rolling_sum high low close volume
                   period
                 = zip_with cell_div sum_mfv sum_volume).
  { unfold _chaikin_money_flow. rewrite Htry. reflexivity. }
  assert (Hnth : forall i, (i < List.length high)%nat ->
            List.nth i (zip_with cell_div sum_mfv sum_volume) nan
            = cell_div (List.nth i sum_mfv nan) (List.nth i sum_volume nan)).
  { intros i Hi. apply zip_with_nth; congruence. }
  exists mfv, sum_mfv, sum_volume.
  split; [exact Hmfv|]. split; [exact Hlen|]. split; [exact Hflat|].
  split.
  { intros Hall. rewrite <- Hlen. apply (nth_all_equal mfv (Some 0%Q) nan).
    intros i Hi. rewrite Hlen in Hi. apply Hflat; [exact Hi | apply Hall, Hi]. }
  split; [exact Hsm|]. split; [exact Hsv|].
  rewrite Hout.
  split; [exact Htry|]. split.
  { rewrite zip_with_length; congruence. }
  split; [exact Hnth|].
  intros i a b Hi Ha Hzero Hb Hnonzero.
  rewrite (Hnth i Hi), Ha, Hb. cbn [cell_div].
  destruct (Qeq_bool b 0) eqn:E.
  - apply Qeq_bool_iff in E. contradiction.
  - exists (a / b)%Q. split; [reflexivity|]. rewrite Hzero.
    unfold Qdiv. apply Qmult_0_l.
Qed.

Lemma chaikin_money_flow_flat_bars_witness :
  let high := [Some 5%Q; Some 7%Q] in
  let low := [Some 5%Q; Some 6%Q] in
  let close := [Some 5%Q; Some 6.75%Q] in
  let volume := [Some 100%Q; Some 200%Q] in
  List.length (_chaikin_money_flow exact_rolling_sum high low close volume 1)
  = 2%nat
  /\ (exists q,
        List.nth 0
          (_chaikin_money_flow exact_rolling_sum high low close volume 1) nan
        = Some q
        /\ (q == 0)%Q)
  /\ List.nth 1
       (_chaikin_money_flow exact_rolling_sum high low close volume 1) nan
     <> nan.
Proof.
  intros high low close volume.
  destruct (chaikin_money_flow_flat_bars exact_rolling_sum high low close
              volume 1 eq_refl eq_refl eq_refl)
    as (mfv & sum_mfv & sum_volume & Hmfv & _ & _ & _ & Hsm & Hsv & _ & Hlen
        & Hrow & Hzero).
  { intros xs. exists (rolling_sum 1 xs). split; [reflexivity|].
    apply rolling_sum_length. }
  vm_compute in Hmfv. injection Hmfv as <-.
  vm_compute in Hsm. injection Hsm as <-.
  vm_compute in Hsv. injection Hsv as <-.
  split; [exact Hlen|]. split.
  - apply (Hzero 0%nat (0 # 1) (100 # 1)); try reflexivity.
    + simpl. lia.
    + discriminate.
  - rewrite (Hrow 1%nat) by (simpl; lia). vm_compute. discriminate.
Defined.

(** ** [add_all_indicators] *)

Lemma missing_column_found (cols : list string) (df : DataFrame) :
  (exists col, In col cols /\ columns df !! col = None) ->
  exists col, missing_column cols df = Some col.
Proof.
  induction cols as [|c cols IH]; intros (col & Hin & Hnone).
  - destruct Hin.
  - simpl. destruct (columns df !! c) eqn:Hc; [|eauto].
    destruct Hin as [->|Hin]; [congruence|]. apply IH. eauto.
Qed.

Lemma missing_column_none (cols : list string) (df : DataFrame) :
  (forall col, In col cols -> is_Some (columns df !! col)) ->
  missing_column cols df = None.
Proof.
  induction cols as [|c cols IH]; intros Hall; simpl; [reflexivity|].
  destruct (Hall c (or_introl eq_refl)) as [s ->].
  apply IH. intros col Hin. apply Hall. right. exact Hin.
Qed.

Lemma run_steps_app talib_MACD library_step (before after : list step)
  (df : DataFrame) :
  run_steps talib_MACD library_step (before ++ after) df
  = run_steps talib_MACD library_step after
      (run_steps talib_MACD library_step before df).
Proof. unfold run_steps. apply List.fold_left_app. Qed.

(** C10 (as stated) fails in its second half: when the [try] block of a
    step raises, its own handler ends the step and the pipeline goes on.
    With a MACD call that raises, [add_all_indicators] returns the frame
    with the RSI column that an earlier step has added, not its input. *)
Lemma raising_step_keeps_other_columns :
  missing_column required_columns flat_frame = None
  /\ step_raised macd_raises rsi_step_only pipeline flat_frame = true
  /\ add_all_indicators macd_raises rsi_step_only flat_frame
     = rsi_only flat_frame
  /\ add_all_indicators macd_raises rsi_step_only flat_frame <> flat_frame.
Proof.
  split; [reflexivity|]. split; [reflexivity|]. split; [reflexivity|].
  intros Heq.
  apply (f_equal (fun df => columns df !! "rsi"%string)) in Heq.
  vm_compute in Heq. discriminate.
Qed.

(** C10 (amended).  A frame that lacks one of the required columns is
    returned unchanged.  A frame that has them all goes through the twelve
    steps; when the [try] block of one of them raises, the step hands on
    the frame as it stood at the exception and the remaining steps run on
    it: the result is the output of the pipeline, not the input. *)
Theorem add_all_indicators_fallback
  (talib_MACD : column -> option (column * column * column))
  (library_step : step -> DataFrame -> outcome) (df : DataFrame) :
  ((exists col, In col required_columns /\ columns df !! col = None) ->
   add_all_indicators talib_MACD library_step df = df)
  /\ ((forall col, In col required_columns -> is_Some (columns df !! col)) ->
      add_all_indicators talib_MACD library_step df
      = run_steps talib_MACD library_step pipeline df
      /\ forall before s after,
           pipeline = before ++ s :: after ->
           has_raised
             (try_body talib_MACD library_step s
                (run_steps talib_MACD library_step before df)) = true ->
           add_all_indicators talib_MACD library_step df
           = run_steps talib_MACD library_step after
               (frame_of
                  (try_body talib_MACD library_step s
                     (run_steps talib_MACD library_step before df)))).
Proof.
  split.
  - intros Hmissing. unfold add_all_indicators.
    destruct (missing_column_found _ _ Hmissing) as [col ->]. reflexivity.
  - intros Hall.
    assert (Hrun : add_all_indicators talib_MACD library_step df
                   = run_steps talib_MACD library_step pipeline df).
    { unfold add_all_indicators.
      rewrite (missing_column_none _ _ Hall). reflexivity. }
    split; [exact Hrun|].
    intros before s after Hsplit _.
    rewrite Hrun, Hsplit, run_steps_app. reflexivity.
Qed.

Lemma add_all_indicators_fallback_witness :
  add_all_indicators macd_raises rsi_step_only frame_without_volume
  = frame_without_volume
  /\ add_all_indicators macd_raises rsi_step_only flat_frame
     = run_steps macd_raises rsi_step_only
         [ add_stochastic; add_williams_r; add_cci; add_volume_indicators;
           add_volatility_indicators; add_trend_indicators;
           add_support_resistance ]
         (rsi_only flat_frame).
Proof.
  split.
  - apply (add_all_indicators_fallback macd_raises rsi_step_only
             frame_without_volume).
    exists "volume"%string. split; [simpl; tauto | reflexivity].
  - destruct (add_all_indicators_fallback macd_raises rsi_step_only flat_frame)
      as [_ Hpresent].
    destruct Hpresent as [_ Hraise].
    + intros col Hin. simpl in Hin.
      destruct Hin as [<-|[<-|[<-|[<-|[<-|[]]]]]]; vm_compute; eauto.
    + apply (Hraise [add_moving_averages; add_bollinger_bands;
                     add_price_channels; add_rsi] add_macd);
        reflexivity.
Defined.

(** ** The news sentiment aggregator *)

Local Open Scope R_scope.











Local Close Scope R_scope.

(** * Further properties of the indicator engine *)

(** ** Pivot points beyond the first row *)

Lemma np_roll1_length {A} (xs : list A) :
  List.length (np_roll1 xs) = List.length xs.
Proof.
  destruct xs as [|x xs]; [reflexivity|].
  unfold np_roll1. cbn [List.length]. rewrite removelast_length. reflexivity.
Qed.

Lemma np_roll1_next {A} (xs : list A) (i : nat) (d : A) :
  (S i < List.length xs)%nat ->
  List.nth (S i) (np_roll1 xs) d = List.nth i xs d.
Proof.
  intros Hi. destruct xs as [|x xs]; [simpl in Hi; lia|].
  transitivity (List.nth i (List.removelast (x :: xs)) d);
    [reflexivity | apply removelast_nth; exact Hi].
Qed.

Lemma scalar_l_nth (f : cell -> cell -> cell) (k : Q) (xs : column) (i : nat) :
  (i < List.length xs)%nat ->
  List.nth i (scalar_l f k xs) nan = f (Some k) (List.nth i xs nan).
Proof.
  intros Hi. unfold scalar_l.
  rewrite (List.nth_indep _ nan (f (Some k) nan))
    by (rewrite List.length_map; exact Hi).
  apply List.map_nth.
Qed.

Lemma scalar_r_nth (f : cell -> cell -> cell) (xs : column) (k : Q) (i : nat) :
  (i < List.length xs)%nat ->
  List.nth i (scalar_r f xs k) nan = f (List.nth i xs nan) (Some k).
Proof.
  intros Hi. unfold scalar_r.
  rewrite (List.nth_indep _ nan ((fun x => f x (Some k)) nan))
    by (rewrite List.length_map; exact Hi).
  apply (List.map_nth (fun x => f x (Some k))).
Qed.

Lemma scalar_l_length (f : cell -> cell -> cell) (k : Q) (xs : column) :
  List.length (scalar_l f k xs) = List.length xs.
Proof. apply List.length_map. Qed.

Lemma scalar_r_length (f : cell -> cell -> cell) (xs : column) (k : Q) :
  List.length (scalar_r f xs k) = List.length xs.
Proof. apply List.length_map. Qed.

(** Lengths of nested column expressions. *)
Ltac column_length :=
  repeat first
    [ rewrite zip_with_length
    | rewrite scalar_l_length
    | rewrite scalar_r_length
    | rewrite np_roll1_length
    | rewrite shift1_length ];
  try congruence; try lia.

(** Row [r] of a nested column expression, cell by cell. *)
Ltac column_nth r :=
  repeat first
    [ rewrite (zip_with_nth _ _ _ r nan nan) by column_length
    | rewrite scalar_l_nth by column_length
    | rewrite scalar_r_nth by column_length ].

(** From the second row on, the pivot of a bar is the mean of the high, low
    and close of the bar before it. *)
Theorem pivot_uses_previous_bar (high low close : column) (i : nat) :
  List.length low = List.length high ->
  List.length close = List.length high ->
  (S i < List.length high)%nat ->
  exists pivot,
    dict_get "pivot" (_calculate_pivot_points high low close) = Some pivot
    /\ List.length pivot = List.length high
    /\ List.nth (S i) pivot nan
       = cell_div
           (cell_add (cell_add (List.nth i high nan) (List.nth i low nan))
                     (List.nth i close nan))
           (Some 3%Q).
Proof.
  intros Hl Hc Hi. eexists. split; [reflexivity|]. split.
  - column_length.
  - column_nth (S i).
    rewrite !np_roll1_next by congruence. reflexivity.
Qed.

Lemma pivot_uses_previous_bar_witness :
  exists pivot,
    dict_get "pivot"
      (_calculate_pivot_points three_highs three_lows three_closes)
    = Some pivot
    /\ List.nth 1 pivot nan
       = cell_div (cell_add (cell_add (Some 10%Q) (Some 8%Q)) (Some 9%Q))
                  (Some 3%Q).
Proof.
  destruct (pivot_uses_previous_bar three_highs three_lows three_closes 0
              eq_refl eq_refl) as (pivot & Hget & _ & Hrow).
  - vm_compute. lia.
  - exists pivot. split; [exact Hget | exact Hrow].
Defined.

(** ** MACD flags never contradict each other *)

(** No bar carries both the bullish and the bearish crossover flag. *)
Theorem macd_cross_flags_exclusive (macd macd_signal : column) (i : nat) :
  List.length macd = List.length macd_signal ->
  List.nth i (macd_bullish_cross macd macd_signal) false
  && List.nth i (macd_bearish_cross macd macd_signal) false = false.
Proof.
  intros Hlen. unfold macd_bullish_cross, macd_bearish_cross.
  destruct (Nat.lt_ge_cases i (List.length macd)) as [Hi|Hi].
  - rewrite cross_up_nth, cross_down_nth by assumption.
    destruct (List.nth i macd nan) as [x|], (List.nth i macd_signal nan) as [y|];
      try reflexivity.
    unfold cell_gt, cell_lt. cbn [cell_cmp].
    destruct (Qltb y x) eqn:Hgt; [|reflexivity].
    destruct (Qltb x y) eqn:Hlt; [|apply andb_false_r].
    apply Qltb_lt in Hgt. apply Qltb_lt in Hlt. lra.
  - rewrite (List.nth_overflow (cross_up macd macd_signal)); [reflexivity|].
    unfold cross_up. column_length.
Qed.

Lemma macd_cross_flags_exclusive_witness :
  List.nth 10 (macd_bullish_cross rising_macd flat_signal) false
  && List.nth 10 (macd_bearish_cross rising_macd flat_signal) false = false.
Proof. apply macd_cross_flags_exclusive. reflexivity. Defined.

(** ** Columns without null cells *)

Lemma finite_length (xs : list Q) : List.length (finite xs) = List.length xs.
Proof. apply List.length_map. Qed.

Lemma zip_with_finite (f : Q -> Q -> Q) (xs ys : list Q) :
  zip_with (cell_lift2 f) (finite xs) (finite ys) = finite (zip_with f xs ys).
Proof.
  revert ys. induction xs as [|x xs IH]; intros [|y ys]; try reflexivity.
  unfold zip_with, finite in *. cbn [List.map List.combine fst snd cell_lift2].
  f_equal. apply IH.
Qed.

Lemma cumsum_from_length (acc : cell) (xs : column) :
  List.length (cumsum_from acc xs) = List.length xs.
Proof.
  revert acc. induction xs as [|x xs IH]; intros acc; simpl; [reflexivity|].
  rewrite IH. reflexivity.
Qed.

Lemma np_cumsum_length (xs : column) :
  List.length (np_cumsum xs) = List.length xs.
Proof.
  destruct xs as [|x xs]; simpl; [reflexivity|].
  rewrite cumsum_from_length. reflexivity.
Qed.

(** Lengths of column expressions over columns without null cells. *)
Ltac finite_column_length :=
  repeat first
    [ rewrite zip_with_length
    | rewrite scalar_l_length
    | rewrite scalar_r_length
    | rewrite np_cumsum_length
    | rewrite finite_length ];
  try congruence; try lia.

(** ** Volume-price trend *)

Lemma zip_with_div_finite (xs ys : list Q) :
  Forall (fun y => ~ (y == 0)%Q) ys ->
  zip_with cell_div (finite xs) (finite ys) = finite (zip_with Qdiv xs ys).
Proof.
  intros Hys. revert xs. induction Hys as [|y ys Hy _ IH]; intros [|x xs];
    try reflexivity.
  unfold zip_with, finite in *. cbn [List.map List.combine fst snd cell_div].
  destruct (Qeq_bool y 0) eqn:E; [apply Qeq_bool_iff in E; contradiction|].
  f_equal. apply IH.
Qed.

Lemma finite_removelast (xs : list Q) :
  List.removelast (finite xs) = finite (List.removelast xs).
Proof.
  induction xs as [|x xs IH]; [reflexivity|].
  destruct xs as [|y ys]; [reflexivity|].
  cbn [finite List.map List.removelast] in *. rewrite IH. reflexivity.
Qed.

Lemma cumsum_from_finite (ts : list Q) (a : Q) :
  exists ys : list Q,
    cumsum_from (Some a) (finite ts) = finite ys
    /\ List.length ys = List.length ts
    /\ forall i, (i < List.length ts)%nat ->
         List.nth i ys 0%Q = (List.nth i (a :: ys) 0 + List.nth i ts 0)%Q.
Proof.
  revert a. induction ts as [|t ts IH]; intros a.
  - exists []. repeat split. intros i Hi. simpl in Hi. lia.
  - destruct (IH (a + t)%Q) as (ys & Hys & Hlen & Hrec).
    exists ((a + t)%Q :: ys). split; [|split].
    + cbn [finite List.map cumsum_from cell_add cell_lift2].
      fold (finite ts). rewrite Hys. reflexivity.
    + simpl. congruence.
    + intros [|i] Hi; [reflexivity|].
      cbn [List.nth]. apply Hrec. simpl in Hi. lia.
Qed.

Lemma np_cumsum_finite (ts : list Q) :
  exists ys : list Q,
    np_cumsum (finite ts) = finite ys
    /\ List.length ys = List.length ts
    /\ List.nth 0 ys 0%Q = List.nth 0 ts 0%Q
    /\ forall i, (S i < List.length ts)%nat ->
         List.nth (S i) ys 0%Q = (List.nth i ys 0 + List.nth (S i) ts 0)%Q.
Proof.
  destruct ts as [|t ts].
  - exists []. repeat split. intros i Hi. simpl in Hi. lia.
  - destruct (cumsum_from_finite ts t) as (ys & Hys & Hlen & Hrec).
    exists (t :: ys). split; [|split; [|split]].
    + cbn [finite List.map np_cumsum]. fold (finite ts). rewrite Hys.
      reflexivity.
    + simpl. congruence.
    + reflexivity.
    + intros i Hi. cbn [List.nth]. apply Hrec. simpl in Hi. lia.
Qed.

(** On a series without a zero close, the volume-price trend has a value
    on every row: it is 0 on the first row, and every later row adds the
    volume of the bar times its price change divided by its own close.
    An empty series gives an empty column. *)
Theorem volume_price_trend_rows (closes volumes : list Q) :
  List.length volumes = List.length closes ->
  Forall (fun c => ~ (c == 0)%Q) closes ->
  exists vpt : list Q,
    _volume_price_trend (finite closes) (finite volumes) = finite vpt
    /\ List.length vpt = List.length closes
    /\ (closes <> [] -> (List.nth 0 vpt 0 == 0)%Q)
    /\ forall i, (S i < List.length closes)%nat ->
         (List.nth (S i) vpt 0
          == List.nth i vpt 0
             + List.nth (S i) volumes 0
               * ((List.nth (S i) closes 0 - List.nth i closes 0)
                  / List.nth (S i) closes 0))%Q.
Proof.
  intros Hv Hnz. destruct closes as [|c0 closes].
  - exists []. split; [reflexivity|]. split; [reflexivity|]. split.
    + intros H. exfalso. apply H. reflexivity.
    + intros i Hi. simpl in Hi. lia.
  - set (cs := c0 :: closes) in *.
    set (prev := c0 :: List.removelast cs).
    assert (Hprev : List.length prev = List.length cs).
    { unfold prev. cbn [List.length]. rewrite removelast_length.
      unfold cs. reflexivity. }
    set (ts := zip_with Qmult volumes
                 (zip_with Qdiv (zip_with Qminus cs prev) cs)).
    assert (Hvpt : _volume_price_trend (finite cs) (finite volumes)
                   = np_cumsum (finite ts)).
    { unfold _volume_price_trend, np_diff_prepend_first, cs at 1.
      cbn [finite List.map]. fold (finite closes).
      change (Some c0 :: finite closes) with (finite cs).
      rewrite finite_removelast.
      change (Some c0 :: finite (List.removelast cs)) with (finite prev).
      change cell_sub with (cell_lift2 Qminus).
      rewrite zip_with_finite, (zip_with_div_finite _ cs) by exact Hnz.
      change cell_mul with (cell_lift2 Qmult).
      rewrite zip_with_finite. reflexivity. }
    assert (Hts : List.length ts = List.length cs).
    { unfold ts. finite_column_length. }
    assert (Hterm : forall i, (i < List.length cs)%nat ->
              List.nth i ts 0%Q
              = (List.nth i volumes 0
                 * ((List.nth i cs 0 - List.nth i prev 0) / List.nth i cs 0))%Q).
    { intros i Hi. unfold ts.
      rewrite (zip_with_nth Qmult _ _ i 0%Q 0%Q) by finite_column_length.
      rewrite (zip_with_nth Qdiv _ _ i 0%Q 0%Q) by finite_column_length.
      rewrite (zip_with_nth Qminus _ _ i 0%Q 0%Q) by finite_column_length.
      reflexivity. }
    destruct (np_cumsum_finite ts) as (vpt & Hsum & Hlen & Hfirst & Hrec).
    exists vpt. split; [congruence|]. split; [congruence|]. split.
    + intros _. rewrite Hfirst, Hterm by (simpl; lia).
      cbn [List.nth cs prev].
      assert (Hc0 : ~ (c0 == 0)%Q) by (inversion Hnz; assumption).
      field. exact Hc0.
    + intros i Hi. rewrite Hrec by congruence.
      rewrite Hterm by exact Hi.
      unfold prev. cbn [List.nth]. rewrite removelast_nth by exact Hi.
      reflexivity.
Qed.

Lemma volume_price_trend_rows_witness :
  exists vpt : list Q,
    _volume_price_trend (finite [100; 110]%Q) (finite [10; 20]%Q) = finite vpt
    /\ (List.nth 0 vpt 0 == 0)%Q
    /\ (List.nth 1 vpt 0 == 0 + 20 * ((110 - 100) / 110))%Q.
Proof.
  destruct (volume_price_trend_rows [100; 110]%Q [10; 20]%Q eq_refl)
    as (vpt & Hvpt & _ & Hfirst & Hrec).
  - repeat constructor; vm_compute; discriminate.
  - exists vpt. split; [exact Hvpt|]. split; [apply Hfirst; discriminate|].
    rewrite (Hrec 0%nat) by (simpl; lia).
    rewrite Hfirst by discriminate. reflexivity.
Defined.

(** ** Fibonacci retracement levels *)

Lemma rolling_extreme_length (pick : Q -> Q -> Q) (n : nat) (xs : column) :
  List.length (rolling_extreme pick n xs) = List.length xs.
Proof.
  unfold rolling_extreme. rewrite List.length_map, List.length_seq. reflexivity.
Qed.

Lemma rolling_extreme_nth (pick : Q -> Q -> Q) (n : nat) (xs : column)
  (i : nat) :
  (i < List.length xs)%nat ->
  List.nth i (rolling_extreme pick n xs) nan
  = if (S i <? n)%nat then nan else window_extreme pick (window n i xs).
Proof.
  intros Hi. unfold rolling_extreme.
  set (f := fun i => if (S i <? n)%nat then nan
                     else window_extreme pick (window n i xs)).
  rewrite (List.nth_indep _ nan (f 0%nat))
    by (rewrite List.length_map, List.length_seq; exact Hi).
  rewrite (List.map_nth f), List.seq_nth by exact Hi. reflexivity.
Qed.

Lemma all_finite_finite (qs : list Q) : all_finite (finite qs) = Some qs.
Proof.
  induction qs as [|q qs IH]; [reflexivity|].
  change (finite (q :: qs)) with (Some q :: finite qs).
  cbn [all_finite]. rewrite IH. reflexivity.
Qed.

Lemma window_finite (n i : nat) (xs : list Q) :
  window n i (finite xs) = finite (List.firstn n (List.skipn (S i - n) xs)).
Proof.
  unfold window, finite. rewrite List.skipn_map, List.firstn_map. reflexivity.
Qed.

Lemma fold_Qmax_ge (qs : list Q) (q x : Q) :
  In x (q :: qs) -> (x <= fold_left Qmax qs q)%Q.
Proof.
  revert q x. induction qs as [|y qs IH]; intros q x Hin; simpl.
  - destruct Hin as [->|[]]. apply Qle_refl.
  - destruct Hin as [->|[->|Hin]].
    + apply Qle_trans with (Qmax x y); [apply Q.le_max_l|].
      apply IH. left. reflexivity.
    + apply Qle_trans with (Qmax q x); [apply Q.le_max_r|].
      apply IH. left. reflexivity.
    + apply IH. right. exact Hin.
Qed.

Lemma fold_Qmin_le (qs : list Q) (q x : Q) :
  In x (q :: qs) -> (fold_left Qmin qs q <= x)%Q.
Proof.
  revert q x. induction qs as [|y qs IH]; intros q x Hin; simpl.
  - destruct Hin as [->|[]]. apply Qle_refl.
  - destruct Hin as [->|[->|Hin]].
    + apply Qle_trans with (Qmin x y); [|apply Q.le_min_l].
      apply IH. left. reflexivity.
    + apply Qle_trans with (Qmin q x); [|apply Q.le_min_r].
      apply IH. left. reflexivity.
    + apply IH. right. exact Hin.
Qed.

(** The extreme of a full window of defined cells: a value that bounds
    the cell of the current row. *)
Lemma rolling_max_row (n i : nat) (xs : list Q) :
  (1 <= n)%nat -> (n <= S i)%nat -> (i < List.length xs)%nat ->
  exists m : Q,
    List.nth i (rolling_max n (finite xs)) nan = Some m
    /\ (List.nth i xs 0 <= m)%Q.
Proof.
  intros H1 Hn Hi. unfold rolling_max.
  rewrite rolling_extreme_nth by (rewrite finite_length; exact Hi).
  destruct (Nat.ltb_spec (S i) n); [lia|].
  unfold window_extreme. rewrite window_finite, all_finite_finite.
  assert (Hin : In (List.nth i xs 0%Q)
                   (List.firstn n (List.skipn (S i - n) xs))).
  { replace (List.nth i xs 0%Q)
      with (List.nth (n - 1) (List.firstn n (List.skipn (S i - n) xs)) 0%Q).
    - apply List.nth_In. rewrite List.length_firstn, List.length_skipn. lia.
    - rewrite List.nth_firstn, List.nth_skipn.
      destruct (Nat.ltb_spec (n - 1) n); [|lia]. f_equal. lia. }
  destruct (List.firstn n (List.skipn (S i - n) xs)) as [|q qs];
    [destruct Hin|].
  eexists. split; [reflexivity|]. apply fold_Qmax_ge. exact Hin.
Qed.

Lemma rolling_min_row (n i : nat) (xs : list Q) :
  (1 <= n)%nat -> (n <= S i)%nat -> (i < List.length xs)%nat ->
  exists m : Q,
    List.nth i (rolling_min n (finite xs)) nan = Some m
    /\ (m <= List.nth i xs 0)%Q.
Proof.
  intros H1 Hn Hi. unfold rolling_min.
  rewrite rolling_extreme_nth by (rewrite finite_length; exact Hi).
  destruct (Nat.ltb_spec (S i) n); [lia|].
  unfold window_extreme. rewrite window_finite, all_finite_finite.
  assert (Hin : In (List.nth i xs 0%Q)
                   (List.firstn n (List.skipn (S i - n) xs))).
  { replace (List.nth i xs 0%Q)
      with (List.nth (n - 1) (List.firstn n (List.skipn (S i - n) xs)) 0%Q).
    - apply List.nth_In. rewrite List.length_firstn, List.length_skipn. lia.
    - rewrite List.nth_firstn, List.nth_skipn.
      destruct (Nat.ltb_spec (n - 1) n); [|lia]. f_equal. lia. }
  destruct (List.firstn n (List.skipn (S i - n) xs)) as [|q qs];
    [destruct Hin|].
  eexists. split; [reflexivity|]. apply fold_Qmin_le. exact Hin.
Qed.

(** The level columns of a row, from the two rolling extremes. *)
Lemma fibonacci_levels_row (high low : column) (period r : nat) :
  List.length low = List.length high ->
  (r < List.length high)%nat ->
  let rh := List.nth r (rolling_max period high) nan in
  let rl := List.nth r (rolling_min period low) nan in
  let level k := cell_sub rh (cell_mul (Some k) (cell_sub rh rl)) in
  List.map (fun level => (fst level, List.nth r (snd level) nan))
           (_calculate_fibonacci_levels high low period)
  = [ ("fib_0", rh);
      ("fib_236", level 0.236%Q); ("fib_382", level 0.382%Q);
      ("fib_500", level 0.500%Q); ("fib_618", level 0.618%Q);
      ("fib_786", level 0.786%Q);
      ("fib_100", rl) ]%string.
Proof.
  intros Hl Hr. cbv zeta. unfold _calculate_fibonacci_levels.
  cbn [List.map fst snd].
  assert (Hh : List.length (rolling_max period high) = List.length high)
    by apply rolling_extreme_length.
  assert (Hlo : List.length (rolling_min period low) = List.length high)
    by (unfold rolling_min; rewrite rolling_extreme_length; exact Hl).
  repeat first
    [ rewrite (zip_with_nth cell_sub _ _ r nan nan)
        by (repeat first [ rewrite zip_with_length
                         | rewrite scalar_l_length ]; congruence)
    | rewrite scalar_l_nth
        by (repeat first [ rewrite zip_with_length
                         | rewrite scalar_l_length ]; congruence) ].
  reflexivity.
Qed.

(** During the warm-up of the rolling window (fewer than [period] bars up
    to the row) every Fibonacci level of the row is null. *)
Theorem fibonacci_levels_warm_up (high low : column) (period i : nat) :
  List.length low = List.length high ->
  (S i < period)%nat ->
  Forall (fun level => List.nth i (snd level) nan = nan)
         (_calculate_fibonacci_levels high low period).
Proof.
  intros Hl Hwarm.
  destruct (Nat.lt_ge_cases i (List.length high)) as [Hi|Hi].
  - apply List.Forall_map with (f := fun level => (fst level, List.nth i (snd level) nan))
                               (P := fun p => snd p = nan).
    rewrite fibonacci_levels_row by assumption.
    unfold rolling_max, rolling_min.
    rewrite !rolling_extreme_nth by congruence.
    destruct (Nat.ltb_spec (S i) period); [|lia].
    repeat constructor.
  - unfold _calculate_fibonacci_levels.
    assert (Hh : List.length (rolling_max period high) = List.length high)
      by apply rolling_extreme_length.
    assert (Hlo : List.length (rolling_min period low) = List.length high)
      by (unfold rolling_min; rewrite rolling_extreme_length; exact Hl).
    repeat constructor; cbn [snd]; apply List.nth_overflow;
      repeat first [ rewrite zip_with_length | rewrite scalar_l_length ];
      congruence || lia.
Qed.

Lemma fibonacci_levels_warm_up_witness :
  Forall (fun level => List.nth 1 (snd level) nan = nan)
         (_calculate_fibonacci_levels three_highs three_lows 20).
Proof. apply fibonacci_levels_warm_up; [reflexivity | lia]. Defined.

(** Past the warm-up, on bars with low <= high, the seven levels of a row
    have values and are ordered from the rolling low (fib_100) up to the
    rolling high (fib_0); the high and the low of the row itself lie in
    that band. *)
Theorem fibonacci_levels_ordered (highs lows : list Q) (period i : nat) :
  List.length lows = List.length highs ->
  (forall j, (j < List.length highs)%nat ->
     (List.nth j lows 0 <= List.nth j highs 0)%Q) ->
  (1 <= period)%nat -> (period <= S i)%nat -> (i < List.length highs)%nat ->
  exists f0 f236 f382 f500 f618 f786 f100 : Q,
    List.map (fun level => (fst level, List.nth i (snd level) nan))
             (_calculate_fibonacci_levels (finite highs) (finite lows) period)
    = [ ("fib_0", Some f0);
        ("fib_236", Some f236); ("fib_382", Some f382);
        ("fib_500", Some f500); ("fib_618", Some f618);
        ("fib_786", Some f786);
        ("fib_100", Some f100) ]%string
    /\ (f100 <= f786)%Q /\ (f786 <= f618)%Q /\ (f618 <= f500)%Q
    /\ (f500 <= f382)%Q /\ (f382 <= f236)%Q /\ (f236 <= f0)%Q
    /\ (f100 <= List.nth i lows 0)%Q /\ (List.nth i highs 0 <= f0)%Q.
Proof.
  intros Hl Hbars H1 Hp Hi.
  rewrite fibonacci_levels_row by (rewrite ?finite_length; congruence).
  destruct (rolling_max_row period i highs H1 Hp Hi) as (rh & -> & Hrh).
  destruct (rolling_min_row period i lows H1 Hp) as (rl & -> & Hrl);
    [congruence|].
  cbn [cell_sub cell_mul cell_lift2].
  assert (Hbar := Hbars i Hi).
  do 7 eexists. split; [reflexivity|].
  repeat split; lra.
Qed.

Lemma fibonacci_levels_ordered_witness :
  exists f0 f236 f382 f500 f618 f786 f100 : Q,
    List.map (fun level => (fst level, List.nth 2 (snd level) nan))
             (_calculate_fibonacci_levels (finite [10; 12; 11]%Q)
                (finite [8; 9; 10]%Q) 2)
    = [ ("fib_0", Some f0);
        ("fib_236", Some f236); ("fib_382", Some f382);
        ("fib_500", Some f500); ("fib_618", Some f618);
        ("fib_786", Some f786);
        ("fib_100", Some f100) ]%string
    /\ (f100 <= f786)%Q /\ (f786 <= f618)%Q /\ (f618 <= f500)%Q
    /\ (f500 <= f382)%Q /\ (f382 <= f236)%Q /\ (f236 <= f0)%Q
    /\ (f100 <= 10)%Q /\ (11 <= f0)%Q.
Proof.
  apply (fibonacci_levels_ordered [10; 12; 11]%Q [8; 9; 10]%Q 2 2);
    try reflexivity; try (simpl; lia).
  intros j Hj. destruct j as [|[|[|j]]]; simpl in *; try lia;
    vm_compute; discriminate.
Defined.

(** ** Trend strength *)

Lemma trend_loop_length (linregress : column -> option (cell * cell))
  (close : column) (rows : list nat) (values : column) :
  trend_loop linregress close rows = Some values ->
  List.length values = List.length rows.
Proof.
  revert values. induction rows as [|i rows IH]; intros values; simpl.
  - intros [= <-]. reflexivity.
  - destruct (trend_at linregress close i); [|discriminate].
    destruct (trend_loop linregress close rows) as [vs|]; [|discriminate].
    intros [= <-]. simpl. f_equal. apply IH. reflexivity.
Qed.

Lemma trend_strength_length (linregress : column -> option (cell * cell))
  (close : column) :
  List.length (_calculate_trend_strength linregress close)
  = List.length close.
Proof.
  unfold _calculate_trend_strength, np_full_like_nan.
  destruct (trend_loop linregress close _) as [values|] eqn:E.
  - apply trend_loop_length in E. rewrite List.length_seq in E.
    rewrite List.length_app, List.repeat_length. lia.
  - apply List.repeat_length.
Qed.

Lemma nth_repeat_nan (n i : nat) : List.nth i (List.repeat nan n) nan = nan.
Proof. apply List.nth_repeat. Qed.

Lemma trend_strength_first_rows
  (linregress : column -> option (cell * cell)) (close : column) (i : nat) :
  (i < 20)%nat ->
  List.nth i (_calculate_trend_strength linregress close) nan = nan.
Proof.
  intros Hi.
  destruct (Nat.lt_ge_cases i (List.length close)) as [Hlen|Hlen].
  - unfold _calculate_trend_strength, np_full_like_nan.
    destruct (trend_loop linregress close _) as [values|].
    + rewrite List.app_nth1 by (rewrite List.repeat_length; lia).
      apply nth_repeat_nan.
    + apply nth_repeat_nan.
  - apply List.nth_overflow. rewrite trend_strength_length. exact Hlen.
Qed.

(** The first 20 rows of the trend strength are null, whatever the
    regression returns or raises, and the column has one cell per close. *)
Theorem trend_strength_warm_up (linregress : column -> option (cell * cell))
  (close : column) :
  List.length (_calculate_trend_strength linregress close)
  = List.length close
  /\ Forall (fun c => c = nan)
       (List.firstn 20 (_calculate_trend_strength linregress close)).
Proof.
  split; [apply trend_strength_length|].
  apply List.Forall_forall. intros c Hin.
  apply (List.In_nth _ _ nan) in Hin. destruct Hin as (k & Hk & <-).
  rewrite List.length_firstn in Hk. rewrite List.nth_firstn.
  destruct (Nat.ltb_spec k 20); [|lia].
  apply trend_strength_first_rows. lia.
Qed.

Lemma trend_loop_total (linregress : column -> option (cell * cell))
  (close : column) (rows : list nat) :
  (forall y, linregress y <> None) ->
  exists values,
    trend_loop linregress close rows = Some values
    /\ forall k, (k < List.length rows)%nat ->
         trend_at linregress close (List.nth k rows 0%nat)
         = Some (List.nth k values nan).
Proof.
  intros Htotal. induction rows as [|i rows (values & Hloop & Hrows)].
  - exists []. split; [reflexivity|]. intros k Hk. simpl in Hk. lia.
  - simpl.
    destruct (trend_at linregress close i) as [value|] eqn:Hat.
    + rewrite Hloop. exists (value :: values). split; [reflexivity|].
      intros [|k] Hk; [exact Hat|]. apply Hrows. simpl in Hk. lia.
    + exfalso. unfold trend_at in Hat.
      destruct (linregress _) as [[slope r]|] eqn:E; [discriminate|].
      apply (Htotal _ E).
Qed.

(** When the regression does not raise, the trend strength of a row from
    row 20 on is computed from the 20 closes before the row: two series
    that agree on the rows before row [i] have the same trend strength on
    row [i], whatever their closes on row [i] and later. *)
Theorem trend_strength_lags (linregress : column -> option (cell * cell))
  (close close' : column) (i : nat) :
  (forall y, linregress y <> None) ->
  List.length close = List.length close' ->
  List.firstn i close = List.firstn i close' ->
  List.nth i (_calculate_trend_strength linregress close) nan
  = List.nth i (_calculate_trend_strength linregress close') nan.
Proof.
  intros Htotal Hlen Hsame.
  destruct (Nat.lt_ge_cases i 20) as [Hwarm|Hpast].
  - rewrite !trend_strength_first_rows by exact Hwarm. reflexivity.
  - destruct (Nat.lt_ge_cases i (List.length close)) as [Hi|Hi].
    + unfold _calculate_trend_strength.
      destruct (trend_loop_total linregress close
                  (List.seq 20 (List.length close - 20)) Htotal)
        as (values & -> & Hrows).
      destruct (trend_loop_total linregress close'
                  (List.seq 20 (List.length close' - 20)) Htotal)
        as (values' & -> & Hrows').
      rewrite !List.app_nth2 by (rewrite List.repeat_length; lia).
      rewrite !List.repeat_length, <- Hlen.
      replace (Nat.min 20 (List.length close)) with 20%nat by lia.
      specialize (Hrows (i - 20)%nat). specialize (Hrows' (i - 20)%nat).
      rewrite List.length_seq in Hrows, Hrows'.
      rewrite List.seq_nth in Hrows by lia.
      rewrite List.seq_nth in Hrows' by lia.
      replace (20 + (i - 20))%nat with i in Hrows, Hrows' by lia.
      assert (Hat : trend_at linregress close i = trend_at linregress close' i).
      { unfold trend_at.
        replace (List.firstn 20 (List.skipn (i - 20) close))
          with (List.skipn (i - 20) (List.firstn i close)).
        - rewrite Hsame, List.skipn_firstn_comm.
          replace (i - (i - 20))%nat with 20%nat by lia. reflexivity.
        - rewrite List.skipn_firstn_comm.
          replace (i - (i - 20))%nat with 20%nat by lia. reflexivity. }
      rewrite Hrows in Hat by lia. rewrite Hrows' in Hat by lia.
      injection Hat as ->. reflexivity.
    + rewrite !List.nth_overflow; rewrite ?trend_strength_length; congruence.
Qed.

Lemma trend_strength_lags_witness :
  List.nth 21
    (_calculate_trend_strength first_close_regression (closes_ending_at 5)) nan
  = List.nth 21
      (_calculate_trend_strength first_close_regression (closes_ending_at 9))
      nan.
Proof.
  apply trend_strength_lags.
  - intros y. discriminate.
  - reflexivity.
  - reflexivity.
Defined.

(** ** Signal summary *)

Lemma get_signal_summary_cases (df : DataFrame) :
  (nrows df = 0%nat /\ get_signal_summary df = None)
  \/ (nrows df <> 0%nat
      /\ exists s,
           get_signal_summary df = Some s
           /\ (bullish_signals s + bearish_signals s)%nat
              = List.length (signal_details s)
           /\ neutral_signals s = 0%nat
           /\ (bullish_signals s <= 5)%nat /\ (bearish_signals s <= 4)%nat
           /\ (overall_signal s, signal_strength s)
              = summary_overall (bullish_signals s) (bearish_signals s)).
Proof.
  unfold get_signal_summary, summary_overall.
  destruct (Nat.eqb_spec (nrows df) 0) as [Hrows|Hrows]; [left; auto|].
  right. split; [exact Hrows|].
  cbv zeta.
  destruct (cell_lt (row_get df (nrows df - 1) "rsi" 50) (Some 30%Q));
    [|destruct (cell_gt (row_get df (nrows df - 1) "rsi" 50) (Some 70%Q))];
  (destruct (row_flag df (nrows df - 1) "macd_bullish_cross" false);
    [|destruct (row_flag df (nrows df - 1) "macd_bearish_cross" false)]);
  (destruct (cell_gt (row_get df (nrows df - 1) "close" 0)
               (row_get df (nrows df - 1) "sma_20" 0)
             && cell_gt (row_get df (nrows df - 1) "sma_20" 0)
                  (row_get df (nrows df - 1) "sma_50" 0));
    [|destruct (cell_lt (row_get df (nrows df - 1) "close" 0)
                  (row_get df (nrows df - 1) "sma_20" 0)
                && cell_lt (row_get df (nrows df - 1) "sma_20" 0)
                     (row_get df (nrows df - 1) "sma_50" 0))]);
  (destruct (cell_lt (row_get df (nrows df - 1) "bb_position" 0.5) (Some 0.1%Q));
    [|destruct (cell_gt (row_get df (nrows df - 1) "bb_position" 0.5)
                 (Some 0.9%Q))]);
  destruct (cell_gt (row_get df (nrows df - 1) "volume_ratio" 1) (Some 2%Q));
  (eexists; split; [reflexivity|]);
  cbn [bullish_signals bearish_signals neutral_signals
       signal_details overall_signal signal_strength
       List.length List.app Nat.add Nat.ltb Nat.leb];
  (split; [reflexivity|]); (split; [reflexivity|]);
  (split; [lia|]); (split; [lia|]); reflexivity.
Qed.

Lemma ratio_above (b r : nat) :
  (0 < b + r)%nat ->
  (0.3 < inject_Z (Z.of_nat b - Z.of_nat r) / inject_Z (Z.of_nat (b + r)))%Q
  <-> (13 * r < 7 * b)%nat.
Proof.
  intros Hpos.
  set (T := inject_Z (Z.of_nat (b + r))).
  set (N := inject_Z (Z.of_nat b - Z.of_nat r)).
  assert (HT : (0 < T)%Q) by (unfold T, Qlt, inject_Z; simpl; lia).
  assert (HN : (N == N / T * T)%Q) by (field; lra).
  assert (Hiff : (3 * T < 10 * N)%Q <-> (13 * r < 7 * b)%nat)
    by (unfold T, N, Qlt, inject_Z; simpl; lia).
  rewrite <- Hiff. set (q := (N / T)%Q) in *. split; intros H; nra.
Qed.

Lemma ratio_below (b r : nat) :
  (0 < b + r)%nat ->
  (inject_Z (Z.of_nat b - Z.of_nat r) / inject_Z (Z.of_nat (b + r)) < -0.3)%Q
  <-> (13 * b < 7 * r)%nat.
Proof.
  intros Hpos.
  set (T := inject_Z (Z.of_nat (b + r))).
  set (N := inject_Z (Z.of_nat b - Z.of_nat r)).
  assert (HT : (0 < T)%Q) by (unfold T, Qlt, inject_Z; simpl; lia).
  assert (HN : (N == N / T * T)%Q) by (field; lra).
  assert (Hiff : (10 * N < - (3) * T)%Q <-> (13 * b < 7 * r)%nat)
    by (unfold T, N, Qlt, inject_Z; simpl; lia).
  rewrite <- Hiff. set (q := (N / T)%Q) in *. split; intros H; nra.
Qed.

Lemma ratio_within_one (b r : nat) :
  (0 < b + r)%nat ->
  (Qabs (inject_Z (Z.of_nat b - Z.of_nat r) / inject_Z (Z.of_nat (b + r)))
   <= 1)%Q.
Proof.
  intros Hpos.
  set (T := inject_Z (Z.of_nat (b + r))).
  set (N := inject_Z (Z.of_nat b - Z.of_nat r)).
  assert (HT : (0 < T)%Q) by (unfold T, Qlt, inject_Z; simpl; lia).
  assert (HN : (N == N / T * T)%Q) by (field; lra).
  assert (Hlo : (- T <= N)%Q) by (unfold T, N, Qle, inject_Z; simpl; lia).
  assert (Hhi : (N <= T)%Q) by (unfold T, N, Qle, inject_Z; simpl; lia).
  set (q := (N / T)%Q) in *.
  apply Qabs_Qle_condition. split; nra.
Qed.


(** A frame without rows has the empty summary.  For a frame with rows,
    every rule that fires adds one detail and one count: the bullish and
    bearish counters add up to the number of details, at most five rules
    count as bullish and at most four as bearish, and nothing is ever
    counted as neutral. *)
Theorem signal_summary_counts (df : DataFrame) :
  match get_signal_summary df with
  | None => nrows df = 0%nat
  | Some s =>
      nrows df <> 0%nat
      /\ (bullish_signals s + bearish_signals s)%nat
         = List.length (signal_details s)
      /\ neutral_signals s = 0%nat
      /\ (bullish_signals s <= 5)%nat
      /\ (bearish_signals s <= 4)%nat
  end.
Proof.
  destruct (get_signal_summary_cases df)
    as [[Hrows ->] | (Hrows & s & -> & Hlen & Hneutral & Hbull & Hbear & _)].
  - exact Hrows.
  - auto.
Qed.

(** The overall signal of a summary is bullish exactly when seven times
    the bullish count exceeds thirteen times the bearish count, bearish in
    the mirrored case and neutral otherwise (also when no rule has fired);
    the signal strength is between 0 and 1. *)
Theorem signal_summary_overall (df : DataFrame) (s : SignalSummary) :
  get_signal_summary df = Some s ->
  (overall_signal s = bullish
   <-> (13 * bearish_signals s < 7 * bullish_signals s)%nat)
  /\ (overall_signal s = bearish
      <-> (13 * bullish_signals s < 7 * bearish_signals s)%nat)
  /\ (0 <= signal_strength s)%Q /\ (signal_strength s <= 1)%Q.
Proof.
  intros Hs.
  destruct (get_signal_summary_cases df)
    as [[_ Hnone] | (_ & s' & Hs' & _ & _ & _ & _ & Hover)]; [congruence|].
  rewrite Hs in Hs'. injection Hs' as <-.
  set (b := bullish_signals s) in *. set (r := bearish_signals s) in *.
  unfold summary_overall in Hover.
  destruct (Nat.ltb_spec 0 (b + r)) as [Hpos|Hzero].
  - assert (Hup := ratio_above b r Hpos).
    assert (Hdown := ratio_below b r Hpos).
    assert (Hone := ratio_within_one b r Hpos).
    set (q := (inject_Z (Z.of_nat b - Z.of_nat r)
               / inject_Z (Z.of_nat (b + r)))%Q) in *.
    assert (Hstr : signal_strength s = Qabs q) by congruence.
    rewrite Hstr.
    split; [|split; [|split; [apply Qabs_nonneg | exact Hone]]].
    + destruct (Qltb 0.3 q) eqn:E.
      * apply Qltb_lt in E. injection Hover as -> _. tauto.
      * apply Qltb_ge in E.
        assert (Hnot : ~ (13 * r < 7 * b)%nat) by (rewrite <- Hup; lra).
        destruct (Qltb q (-0.3)); injection Hover as -> _;
          split; (discriminate || lia).
    + destruct (Qltb 0.3 q) eqn:E.
      * apply Qltb_lt in E. injection Hover as -> _.
        assert (Hnot : ~ (13 * b < 7 * r)%nat) by (rewrite <- Hdown; lra).
        split; (discriminate || lia).
      * destruct (Qltb q (-0.3)) eqn:E'.
        -- apply Qltb_lt in E'. injection Hover as -> _. tauto.
        -- apply Qltb_ge in E'.
           assert (Hnot : ~ (13 * b < 7 * r)%nat) by (rewrite <- Hdown; lra).
           injection Hover as -> _. split; (discriminate || lia).
  - injection Hover as -> ->.
    split; [|split; [|split]]; try (split; (discriminate || lia)); lra.
Qed.

Lemma signal_summary_overall_witness :
  exists s,
    get_signal_summary (rsi_only flat_frame) = Some s
    /\ overall_signal s = bullish
    /\ (signal_strength s <= 1)%Q.
Proof.
  eexists.
  assert (H : get_signal_summary (rsi_only flat_frame) = Some _)
    by (vm_compute; reflexivity).
  split; [exact H|].
  destruct (signal_summary_overall _ _ H) as (Hbull & _ & _ & Hle).
  split; [|exact Hle].
  apply Hbull. vm_compute. lia.
Defined.

(** ** The two readers of the MACD crossover agree *)

Ltac solve_membership :=
  split;
  [ intros (x & Hin & Hx); simpl in Hin;
    repeat match goal with
           | H : _ \/ _ |- _ => destruct H
           | H : False |- _ => destruct H
           end;
    subst; simpl in Hx;
    first [ reflexivity | discriminate | tauto
          | (destruct Hx; discriminate) | (destruct Hx; congruence) ]
  | intros H; first [ discriminate | (destruct H; discriminate) | idtac ] ].

Ltac pick_member :=
  match goal with
  | |- exists m, In m ?l /\ _ =>
      let rec find l' :=
        lazymatch l' with
        | ?x :: ?rest =>
            first [ (exists x; split; [simpl; tauto | simpl; auto; reflexivity])
                  | find rest ]
        end in
      find l
  end.

Lemma generator_macd_rule (ti : DataFrame -> DataFrame) (tok : string)
  (frame : DataFrame) (now : datetime) :
  (20 <= nrows (ti frame))%nat ->
  let latest := row_get (ti frame) (nrows (ti frame) - 1) in
  let prev := row_get (ti frame) (nrows (ti frame) - 2) in
  let up :=
    cell_gt (latest "macd"%string 0%Q) (latest "macd_signal"%string 0%Q)
    && cell_le (prev "macd"%string 0%Q) (prev "macd_signal"%string 0%Q) in
  let down :=
    cell_lt (latest "macd"%string 0%Q) (latest "macd_signal"%string 0%Q)
    && cell_ge (prev "macd"%string 0%Q) (prev "macd_signal"%string 0%Q) in
  ((exists m, In m (_generate_technical_signals ti tok frame now)
              /\ source m = "macd_bullish_crossover"%string)
   <-> up = true)
  /\ ((exists m, In m (_generate_technical_signals ti tok frame now)
                 /\ source m = "macd_bearish_crossover"%string)
      <-> up = false /\ down = true).
Proof.
  intros Hrows. cbv zeta. unfold _generate_technical_signals.
  destruct (Nat.ltb_spec (nrows (ti frame)) 20) as [|_]; [lia|].
  set (latest := row_get (ti frame) (nrows (ti frame) - 1)).
  set (prev := row_get (ti frame) (nrows (ti frame) - 2)).
  destruct (cell_lt (latest "rsi"%string 50%Q) (Some 30%Q));
    [|destruct (cell_gt (latest "rsi"%string 50%Q) (Some 70%Q))];
  (destruct (cell_gt (latest "macd"%string 0%Q) (latest "macd_signal"%string 0%Q)
             && cell_le (prev "macd"%string 0%Q) (prev "macd_signal"%string 0%Q));
    [|destruct (cell_lt (latest "macd"%string 0%Q)
                  (latest "macd_signal"%string 0%Q)
                && cell_ge (prev "macd"%string 0%Q)
                     (prev "macd_signal"%string 0%Q))]);
  (destruct (cell_gt (latest "close"%string 0%Q) (latest "sma_20"%string 0%Q)
             && cell_gt (latest "sma_20"%string 0%Q) (latest "sma_50"%string 0%Q));
    [|destruct (cell_lt (latest "close"%string 0%Q) (latest "sma_20"%string 0%Q)
                && cell_lt (latest "sma_20"%string 0%Q)
                     (latest "sma_50"%string 0%Q))]);
  cbn [List.app]; split; solve_membership; try pick_member; auto.
Qed.

Lemma summary_macd_rule (df : DataFrame) (s : SignalSummary) :
  get_signal_summary df = Some s ->
  let flag := row_flag df (nrows df - 1) in
  ((exists d, In d (signal_details s)
              /\ indicator d = "MACD"%string
              /\ d_signal d = "bullish_crossover"%string)
   <-> flag "macd_bullish_cross"%string false = true)
  /\ ((exists d, In d (signal_details s)
                 /\ indicator d = "MACD"%string
                 /\ d_signal d = "bearish_crossover"%string)
      <-> flag "macd_bullish_cross"%string false = false
          /\ flag "macd_bearish_cross"%string false = true).
Proof.
  unfold get_signal_summary.
  destruct (Nat.eqb_spec (nrows df) 0) as [|_]; [discriminate|].
  cbv zeta.
  destruct (cell_lt (row_get df (nrows df - 1) "rsi" 50) (Some 30%Q));
    [|destruct (cell_gt (row_get df (nrows df - 1) "rsi" 50) (Some 70%Q))];
  (destruct (row_flag df (nrows df - 1) "macd_bullish_cross" false);
    [|destruct (row_flag df (nrows df - 1) "macd_bearish_cross" false)]);
  (destruct (cell_gt (row_get df (nrows df - 1) "close" 0)
               (row_get df (nrows df - 1) "sma_20" 0)
             && cell_gt (row_get df (nrows df - 1) "sma_20" 0)
                  (row_get df (nrows df - 1) "sma_50" 0));
    [|destruct (cell_lt (row_get df (nrows df - 1) "close" 0)
                  (row_get df (nrows df - 1) "sma_20" 0)
                && cell_lt (row_get df (nrows df - 1) "sma_20" 0)
                     (row_get df (nrows df - 1) "sma_50" 0))]);
  (destruct (cell_lt (row_get df (nrows df - 1) "bb_position" 0.5) (Some 0.1%Q));
    [|destruct (cell_gt (row_get df (nrows df - 1) "bb_position" 0.5)
                 (Some 0.9%Q))]);
  destruct (cell_gt (row_get df (nrows df - 1) "volume_ratio" 1) (Some 2%Q));
  intros [= <-]; cbn [signal_details List.app];
  split; solve_membership; try pick_member; auto.
Qed.

(** On a frame whose MACD columns are those that [add_macd] writes, the
    signal generator of the analyzer, which compares the last two rows of
    the MACD and signal lines, and [get_signal_summary], which reads the
    crossover flags of the last row, report the same crossover: a bullish
    one, a bearish one, or none. *)
Theorem macd_readers_agree (ti : DataFrame -> DataFrame) (tok : string)
  (frame : DataFrame) (now : datetime) (macd macd_signal : column)
  (s : SignalSummary) :
  columns (ti frame) !! "macd"%string = Some (FloatSeries macd) ->
  columns (ti frame) !! "macd_signal"%string = Some (FloatSeries macd_signal) ->
  columns (ti frame) !! "macd_bullish_cross"%string
  = Some (BoolSeries (macd_bullish_cross macd macd_signal)) ->
  columns (ti frame) !! "macd_bearish_cross"%string
  = Some (BoolSeries (macd_bearish_cross macd macd_signal)) ->
  List.length macd = nrows (ti frame) ->
  List.length macd_signal = nrows (ti frame) ->
  (20 <= nrows (ti frame))%nat ->
  get_signal_summary (ti frame) = Some s ->
  ((exists m, In m (_generate_technical_signals ti tok frame now)
              /\ source m = "macd_bullish_crossover"%string)
   <-> (exists d, In d (signal_details s)
                  /\ indicator d = "MACD"%string
                  /\ d_signal d = "bullish_crossover"%string))
  /\ ((exists m, In m (_generate_technical_signals ti tok frame now)
                 /\ source m = "macd_bearish_crossover"%string)
      <-> (exists d, In d (signal_details s)
                     /\ indicator d = "MACD"%string
                     /\ d_signal d = "bearish_crossover"%string)).
Proof.
  intros Hmacd Hsig Hup Hdown Hlm Hls Hrows Hs.
  destruct (generator_macd_rule ti tok frame now Hrows) as [Hgu Hgd].
  destruct (summary_macd_rule _ _ Hs) as [Hsu Hsd].
  cbv zeta in *.
  set (n := nrows (ti frame)) in *.
  assert (Hlast : (n - 1 = S (n - 2))%nat) by lia.
  assert (Eup :
    row_flag (ti frame) (n - 1) "macd_bullish_cross" false
    = cell_gt (row_get (ti frame) (n - 1) "macd" 0)
              (row_get (ti frame) (n - 1) "macd_signal" 0)
      && cell_le (row_get (ti frame) (n - 2) "macd" 0)
                 (row_get (ti frame) (n - 2) "macd_signal" 0)).
  { unfold row_flag, row_get. rewrite Hup, Hmacd, Hsig.
    cbn [series_truth series_cell]. unfold macd_bullish_cross.
    rewrite cross_up_nth by lia.
    rewrite Hlast at 3 4. rewrite !shift1_next by lia. reflexivity. }
  assert (Edown :
    row_flag (ti frame) (n - 1) "macd_bearish_cross" false
    = cell_lt (row_get (ti frame) (n - 1) "macd" 0)
              (row_get (ti frame) (n - 1) "macd_signal" 0)
      && cell_ge (row_get (ti frame) (n - 2) "macd" 0)
                 (row_get (ti frame) (n - 2) "macd_signal" 0)).
  { unfold row_flag, row_get. rewrite Hdown, Hmacd, Hsig.
    cbn [series_truth series_cell]. unfold macd_bearish_cross.
    rewrite cross_down_nth by lia.
    rewrite Hlast at 3 4. rewrite !shift1_next by lia. reflexivity. }
  rewrite Eup, Edown in *. split.
  - rewrite Hgu, Hsu. reflexivity.
  - rewrite Hgd, Hsd. reflexivity.
Qed.

Lemma macd_readers_agree_witness :
  exists s,
    get_signal_summary twenty_bars_with_macd = Some s
    /\ ((exists m,
           In m (_generate_technical_signals (fun _ => twenty_bars_with_macd)
                   "ETH" twenty_bars 0)
           /\ source m = "macd_bullish_crossover"%string)
        <-> (exists d, In d (signal_details s)
                       /\ indicator d = "MACD"%string
                       /\ d_signal d = "bullish_crossover"%string)).
Proof.
  eexists.
  assert (H : get_signal_summary twenty_bars_with_macd = Some _)
    by (vm_compute; reflexivity).
  split; [exact H|].
  apply (macd_readers_agree (fun _ => twenty_bars_with_macd) "ETH"
           twenty_bars 0 (List.repeat (Some (-1)%Q) 19 ++ [Some 1%Q])
           (List.repeat (Some 0%Q) 20) _);
    try reflexivity; try exact H.
Defined.

(** ** Candlestick patterns *)

Lemma recent_hits_in (name : string) (len i : nat) (recent : list Z)
  (p : Pattern) :
  In p (recent_hits name len i recent) ->
  exists j,
    (j < List.length recent)%nat
    /\ List.nth j recent 0 <> 0
    /\ p = mkPattern name
             (if 0 <? List.nth j recent 0 then bullish else bearish)
             (inject_Z (Z.abs (List.nth j recent 0%Z)) / 100)%Q
             (len - (i + j) - 1).
Proof.
  revert i. induction recent as [|value rest IH]; intros i Hin; simpl in Hin.
  - destruct Hin.
  - apply List.in_app_or in Hin. destruct Hin as [Hin|Hin].
    + destruct (Z.eqb_spec value 0) as [|Hne]; [destruct Hin|].
      destruct Hin as [<-|[]]. exists 0%nat. simpl.
      repeat split; [lia | exact Hne |].
      rewrite Nat.add_0_r. reflexivity.
    + destruct (IH (S i) Hin) as (j & Hj & Hne & ->).
      exists (S j). simpl. repeat split; [lia | exact Hne |].
      replace (i + S j)%nat with (S i + j)%nat by lia. reflexivity.
Qed.

Lemma lastn_length {A} (n : nat) (xs : list A) :
  List.length (lastn n xs) = Nat.min n (List.length xs).
Proof. unfold lastn. rewrite List.length_skipn. lia. Qed.

Lemma lastn_nth {A} (n j : nat) (xs : list A) (d : A) :
  List.nth j (lastn n xs) d = List.nth (List.length xs - n + j) xs d.
Proof. unfold lastn. apply List.nth_skipn. Qed.

(** Every pattern that [detect_patterns] reports comes from a frame of at
    least 50 bars and from one of the nine pattern functions; it points at
    one of the last ten bars, where the output of that function is not
    zero, and carries the sign of that output as its signal and a
    hundredth of its magnitude as its strength. *)
Theorem detect_patterns_entries
  (talib_CDL : string -> column -> column -> column -> column -> option (list Z))
  (df : DataFrame) (p : Pattern) :
  In p (detect_patterns talib_CDL df) ->
  (50 <= nrows df)%nat
  /\ In (pattern p) pattern_names
  /\ (periods_ago p <= 9)%nat
  /\ exists open_prices high low close result,
       float_values "open" df = Some open_prices
       /\ float_values "high" df = Some high
       /\ float_values "low" df = Some low
       /\ float_values "close" df = Some close
       /\ talib_CDL (pattern p) open_prices high low close = Some result
       /\ (periods_ago p < List.length result)%nat
       /\ let value :=
            List.nth (List.length result - 1 - periods_ago p) result 0 in
          value <> 0
          /\ p_signal p = (if 0 <? value then bullish else bearish)
          /\ p_strength p = (inject_Z (Z.abs value) / 100)%Q
          /\ (0 < p_strength p)%Q.
Proof.
  unfold detect_patterns. intros Hin.
  destruct (Nat.ltb_spec (nrows df) 50) as [|Hrows]; [destruct Hin|].
  destruct (float_values "high" df) as [high|]; [|destruct Hin].
  destruct (float_values "low" df) as [low|]; [|destruct Hin].
  destruct (float_values "close" df) as [close|]; [|destruct Hin].
  destruct (float_values "open" df) as [open_prices|]; [|destruct Hin].
  apply List.in_flat_map in Hin. destruct Hin as (name & Hname & Hin).
  destruct (talib_CDL name open_prices high low close) as [result|] eqn:Hcall;
    [|destruct Hin].
  cbv zeta in Hin. apply recent_hits_in in Hin.
  destruct Hin as (j & Hj & Hne & ->).
  rewrite lastn_length in Hj. rewrite lastn_length, lastn_nth in *.
  cbn [pattern periods_ago p_signal p_strength].
  split; [exact Hrows|]. split; [exact Hname|]. split; [lia|].
  exists open_prices, high, low, close, result.
  repeat (split; [reflexivity || exact Hcall|]).
  split; [lia|]. cbv zeta.
  replace (List.length result - 1
           - (Nat.min 10 (List.length result) - (0 + j) - 1))%nat
    with (List.length result - 10 + j)%nat by lia.
  set (value := List.nth (List.length result - 10 + j) result 0) in *.
  repeat split; try assumption.
  unfold Qlt, Qdiv, Qmult, Qinv, inject_Z. simpl. lia.
Qed.

Lemma detect_patterns_entries_witness :
  (periods_ago (mkPattern "hammer" bullish (inject_Z (Z.abs 100) / 100)%Q 0)
   <= 9)%nat
  /\ In "hammer"%string pattern_names.
Proof.
  destruct (detect_patterns_entries hammer_only flat_frame
              (mkPattern "hammer" bullish (inject_Z (Z.abs 100) / 100)%Q 0))
    as (_ & Hname & Hago & _).
  - vm_compute. left. reflexivity.
  - split; [exact Hago | exact Hname].
Defined.

(** * Further properties of the real-time analyzer *)

(** ** Signal strengths *)

Lemma py_min_one_valid (x : Q) : (0 < x)%Q -> (0 < py_min 1 x)%Q /\ (py_min 1 x <= 1)%Q.
Proof.
  intros Hx. unfold py_min. destruct (Qltb x 1) eqn:E.
  - apply Qltb_lt in E. lra.
  - lra.
Qed.

Lemma price_movement_signals_valid (self : RealTimeAnalyzer) (tok : string)
  (price_data : PriceData) (now : datetime) :
  Forall valid_strength (price_movement_signals self tok price_data now).
Proof.
  unfold price_movement_signals.
  assert (Hmove : Qltb 5 (Qabs (pd_change_24h price_data)) = true ->
                  valid_strength
                    (mkSignal now tok
                       (if Qltb 0 (pd_change_24h price_data)
                        then bullish else bearish)
                       (py_min 1 (Qabs (pd_change_24h price_data) / 20)) 
                       "price_movement"
                       [("change_24h"%string, Some (pd_change_24h price_data));
                        ("volume_24h"%string, Some (pd_volume_24h price_data))])).
  { intros E. apply Qltb_lt in E. apply py_min_one_valid.
    apply Qlt_shift_div_l; lra. }
  assert (Hspike : forall d, valid_strength
                     (mkSignal now tok bullish 0.6%Q "volume_spike" d)).
  { intros d. split; simpl; lra. }
  destruct (Qltb 5 (Qabs (pd_change_24h price_data))) eqn:E;
    destruct (price_data_cache self !! tok) as [prev|];
    try destruct (Qltb 0 (pd_volume_24h prev)
                  && Qltb (pd_volume_24h prev * 2) (pd_volume_24h price_data));
    cbn [List.app];
    repeat first [apply List.Forall_nil | apply List.Forall_cons]; auto.
Qed.

Lemma technical_signals_valid (ti : DataFrame -> DataFrame) (tok : string)
  (frame : DataFrame) (now : datetime) :
  Forall valid_strength (_generate_technical_signals ti tok frame now).
Proof.
  unfold _generate_technical_signals.
  destruct (nrows (ti frame) <? 20)%nat; [constructor|].
  set (latest := row_get (ti frame) (nrows (ti frame) - 1)).
  set (prev := row_get (ti frame) (nrows (ti frame) - 2)).
  destruct (cell_lt (latest "rsi"%string 50%Q) (Some 30%Q));
    [|destruct (cell_gt (latest "rsi"%string 50%Q) (Some 70%Q))];
  (destruct (cell_gt (latest "macd"%string 0%Q) (latest "macd_signal"%string 0%Q)
             && cell_le (prev "macd"%string 0%Q) (prev "macd_signal"%string 0%Q));
    [|destruct (cell_lt (latest "macd"%string 0%Q)
                  (latest "macd_signal"%string 0%Q)
                && cell_ge (prev "macd"%string 0%Q)
                     (prev "macd_signal"%string 0%Q))]);
  (destruct (cell_gt (latest "close"%string 0%Q) (latest "sma_20"%string 0%Q)
             && cell_gt (latest "sma_20"%string 0%Q) (latest "sma_50"%string 0%Q));
    [|destruct (cell_lt (latest "close"%string 0%Q) (latest "sma_20"%string 0%Q)
                && cell_lt (latest "sma_20"%string 0%Q)
                     (latest "sma_50"%string 0%Q))]);
  cbn [List.app]; repeat constructor; simpl; lra.
Qed.

Lemma composite_signal_valid (self : RealTimeAnalyzer) (tok : string)
  (now : datetime) (sig : MarketSignal) :
  _generate_composite_signal self tok now = Some sig -> valid_strength sig.
Proof.
  intros Hsig.
  destruct (composite_signal_inv _ _ _ _ Hsig)
    as (net & score & _ & _ & _ & _ & _ & _ & _ & Hclass).
  unfold valid_strength.
  destruct (Qltb 0.3 (net + score)) eqn:Hup.
  - apply Qltb_lt in Hup. injection Hclass as _ ->.
    apply py_min_one_valid. lra.
  - destruct (Qltb (net + score) (-0.3)) eqn:Hdown.
    + apply Qltb_lt in Hdown. injection Hclass as _ ->.
      apply py_min_one_valid.
      apply (Qabs_case (net + score) (fun q => (0 < q)%Q)); intros; lra.
    + injection Hclass as _ ->. lra.
Qed.

(** Whatever the inputs, each of the three writers keeps the strengths of
    the store in (0, 1]: the price collector, the technical processor and
    the fuser only add signals whose strength is in that range. *)
Theorem strengths_stay_valid (ti : DataFrame -> DataFrame)
  (self : RealTimeAnalyzer) (tok : string) (fetched : option PriceData)
  (historical_data : option DataFrame) (now : datetime) :
  Forall valid_strength (market_signals self) ->
  Forall valid_strength (market_signals (collect_price self tok fetched now))
  /\ Forall valid_strength
       (market_signals (process_technical ti self tok historical_data now))
  /\ Forall valid_strength (market_signals (fuse self tok now)).
Proof.
  intros Hstore. split; [|split].
  - unfold collect_price. destruct fetched as [price_data|]; [|exact Hstore].
    unfold _analyze_price_movement. cbn [market_signals set_market_signals].
    apply List.Forall_forall. intros s Hin.
    apply List.filter_In in Hin. destruct Hin as [Hin _].
    apply List.in_app_or in Hin. destruct Hin as [Hin|Hin].
    + rewrite List.Forall_forall in Hstore. apply Hstore. exact Hin.
    + pose proof (price_movement_signals_valid
                    (set_price_data tok price_data self) tok price_data now)
        as Hnew.
      rewrite List.Forall_forall in Hnew. apply Hnew. exact Hin.
  - unfold process_technical.
    destruct historical_data as [frame|]; [|exact Hstore].
    destruct (50 <? nrows frame)%nat; [|exact Hstore].
    pose proof (technical_signals_valid ti tok frame now) as Hnew.
    destruct (_generate_technical_signals ti tok frame now) as [|s rest];
      [exact Hstore|].
    cbn [market_signals set_market_signals].
    apply List.Forall_app. split; assumption.
  - unfold fuse.
    destruct (_generate_composite_signal self tok now) as [sig|] eqn:Hsig;
      [|exact Hstore].
    cbn [market_signals set_market_signals].
    apply List.Forall_app. split; [exact Hstore|].
    constructor; [|constructor]. apply (composite_signal_valid _ _ _ _ Hsig).
Qed.

Lemma strengths_stay_valid_witness :
  Forall valid_strength
    (market_signals (collect_price after_price "ETH" (Some eth_volume_tripled)
                       (minutes 5)))
  /\ Forall valid_strength
       (market_signals
          (process_technical rsi_only after_price "ETH" (Some flat_frame)
             (minutes 5)))
  /\ Forall valid_strength (market_signals after_fusion).
Proof.
  apply (strengths_stay_valid rsi_only after_price "ETH"
           (Some eth_volume_tripled) (Some flat_frame) (minutes 5)).
  constructor; [|constructor]. split; vm_compute; [reflexivity | discriminate].
Defined.

(** ** One cycle of the price collector *)

Lemma collect_price_fresh (self : RealTimeAnalyzer) (tok : string)
  (price_data : PriceData) (now : datetime) :
  Forall (fresh now)
    (market_signals (collect_price self tok (Some price_data) now)).
Proof.
  unfold collect_price, _analyze_price_movement.
  cbn [market_signals set_market_signals].
  apply List.Forall_forall. intros s Hin.
  apply List.filter_In in Hin. destruct Hin as [_ Hts].
  apply Z.ltb_lt in Hts. exact Hts.
Qed.

Lemma collect_price_keeps (self : RealTimeAnalyzer) (tok : string)
  (fetched : option PriceData) (now : datetime) (s : MarketSignal) :
  In s (market_signals self) -> fresh now s ->
  In s (market_signals (collect_price self tok fetched now)).
Proof.
  intros Hin Hfresh. unfold collect_price.
  destruct fetched as [price_data|]; [|exact Hin].
  unfold _analyze_price_movement. cbn [market_signals set_market_signals].
  apply List.filter_In. split.
  - apply List.in_or_app. left. exact Hin.
  - apply Z.ltb_lt. exact Hfresh.
Qed.

(** What one turn of the collector adds to the store. *)
Lemma collect_price_adds (self : RealTimeAnalyzer) (tok : string)
  (fetched : option PriceData) (now : datetime) (s : MarketSignal) :
  In s (market_signals (collect_price self tok fetched now)) ->
  In s (market_signals self)
  \/ (source s = "price_movement"%string /\ timestamp s = now
      /\ token s = tok /\ fetched <> None).
Proof.
  unfold collect_price. destruct fetched as [price_data|]; [|tauto].
  unfold _analyze_price_movement. cbn [market_signals set_market_signals].
  intros Hin. apply List.filter_In in Hin. destruct Hin as [Hin _].
  apply List.in_app_or in Hin. destruct Hin as [Hin|Hin].
  - left. exact Hin.
  - right. unfold price_movement_signals in Hin.
    rewrite collector_reads_own_entry, no_volume_doubles_itself in Hin.
    destruct (Qltb 5 (Qabs (pd_change_24h price_data))); simpl in Hin.
    + destruct Hin as [<-|[]]. simpl. repeat split. discriminate.
    + destruct Hin.
Qed.

(** One turn of the collector loop, from the cache write to the end of
    the analysis (the code does not suspend in between), never drops a
    signal that is younger than 24 hours.  Whatever it adds to the store
    is a price-movement signal of the token of the turn, stamped with the
    clock reading of the turn, and only when price data has been fetched.
    And when the turn has added a signal it has pruned as well: every
    signal of the store is then younger than 24 hours. *)
Theorem collector_turn_store (self : RealTimeAnalyzer) (tok : string)
  (fetched : option PriceData) (now : datetime) :
  let after := collect_price self tok fetched now in
  (forall s, In s (market_signals self) -> fresh now s ->
     In s (market_signals after))
  /\ (forall s, In s (market_signals after) ->
        In s (market_signals self)
        \/ (source s = "price_movement"%string /\ timestamp s = now
            /\ token s = tok /\ fetched <> None))
  /\ ((exists s, In s (market_signals after) /\ ~ In s (market_signals self)) ->
      Forall (fresh now) (market_signals after)).
Proof.
  cbv zeta. split; [|split].
  - intros s Hin Hfresh. apply collect_price_keeps; assumption.
  - intros s Hin. apply collect_price_adds in Hin. exact Hin.
  - intros (s & Hin & Hnew).
    apply collect_price_adds in Hin.
    destruct Hin as [Hin|(_ & _ & _ & Hfetch)]; [contradiction|].
    destruct fetched as [price_data|]; [|congruence].
    apply collect_price_fresh.
Qed.

Lemma collector_turn_store_witness :
  Forall (fresh (timedelta_hours 25))
    (market_signals
       (collect_price after_price "ETH" (Some eth_rally) (timedelta_hours 25))).
Proof.
  destruct (collector_turn_store after_price "ETH" (Some eth_rally)
              (timedelta_hours 25))
    as (_ & _ & Hpruned).
  apply Hpruned.
  exists (mkSignal (timedelta_hours 25) "ETH" bullish
            (py_min 1 (Qabs 10 / 20)) "price_movement"
            [ ("change_24h", Some 10%Q); ("volume_24h", Some 1000000%Q) ]%string).
  split.
  - vm_compute. left. reflexivity.
  - vm_compute. intros [H|[]]. discriminate.
Defined.

Lemma collect_price_cache (self : RealTimeAnalyzer) (tok other : string)
  (fetched : option PriceData) (now : datetime) :
  price_data_cache (collect_price self tok fetched now) !! other
  = match fetched with
    | Some price_data =>
        if String.eqb tok other then Some price_data
        else price_data_cache self !! other
    | None => price_data_cache self !! other
    end.
Proof.
  unfold collect_price. destruct fetched as [price_data|]; [|reflexivity].
  unfold _analyze_price_movement, set_market_signals, set_price_data.
  cbn [price_data_cache].
  destruct (String.eqb_spec tok other) as [->|Hne].
  - apply lookup_insert_eq.
  - apply lookup_insert_ne. exact Hne.
Qed.

Lemma collector_loop_cache (fetch : string -> option PriceData)
  (now : datetime) (tokens : list string) (self : RealTimeAnalyzer)
  (tok : string) :
  price_data_cache
    (fold_left (fun self tok => collect_price self tok (fetch tok) now)
               tokens self) !! tok
  = if List.existsb (String.eqb tok) tokens then
      match fetch tok with
      | Some price_data => Some price_data
      | None => price_data_cache self !! tok
      end
    else price_data_cache self !! tok.
Proof.
  revert self. induction tokens as [|t tokens IH]; intros self; simpl.
  - reflexivity.
  - rewrite IH, collect_price_cache.
    rewrite (String.eqb_sym tok t).
    destruct (String.eqb_spec t tok) as [->|Hne]; simpl.
    + destruct (fetch tok); destruct (List.existsb _ tokens); reflexivity.
    + destruct (fetch t); reflexivity.
Qed.

(** After a collector cycle, the price cache holds, for a supported token,
    the data of the first of the three sources (CoinGecko, Binance,
    CoinMarketCap) that has answered, a source that raises or returns
    nothing being skipped; when none has answered the token keeps its old
    entry, and so does every token that is not supported. *)
Theorem collector_cycle_cache
  (coingecko binance coinmarketcap : string -> fetch_result)
  (now : datetime) (self : RealTimeAnalyzer) (tok : string) :
  let after :=
    _price_data_collector
      (_fetch_latest_price_data coingecko binance coinmarketcap) now self in
  (In tok SUPPORTED_TOKENS ->
   price_data_cache after !! tok
   = match coingecko tok, binance tok, coinmarketcap tok with
     | Fetched price_data, _, _ => Some price_data
     | _, Fetched price_data, _ => Some price_data
     | _, _, Fetched price_data => Some price_data
     | _, _, _ => price_data_cache self !! tok
     end)
  /\ (~ In tok SUPPORTED_TOKENS ->
      price_data_cache after !! tok = price_data_cache self !! tok).
Proof.
  cbv zeta. unfold _price_data_collector. rewrite collector_loop_cache.
  split; intros Htok.
  - assert (Hex : List.existsb (String.eqb tok) SUPPORTED_TOKENS = true).
    { apply List.existsb_exists. exists tok. split; [exact Htok|].
      apply String.eqb_refl. }
    rewrite Hex. unfold _fetch_latest_price_data. simpl.
    destruct (coingecko tok), (binance tok), (coinmarketcap tok); reflexivity.
  - destruct (List.existsb (String.eqb tok) SUPPORTED_TOKENS) eqn:Hex;
      [|reflexivity].
    apply List.existsb_exists in Hex. destruct Hex as (t & Hin & Heq).
    apply String.eqb_eq in Heq. subst t. contradiction.
Qed.

Lemma collector_cycle_cache_witness :
  price_data_cache
    (_price_data_collector
       (_fetch_latest_price_data coingecko_down binance_eth_only
          coinmarketcap_silent)
       (minutes 1) after_price) !! "ETH"%string
  = Some eth_volume_tripled.
Proof.
  apply (collector_cycle_cache coingecko_down binance_eth_only
           coinmarketcap_silent (minutes 1) after_price "ETH"%string).
  simpl. tauto.
Defined.

(** ** One cycle of the fuser *)

Lemma recent_signals_other_tokens (self : RealTimeAnalyzer) (tok : string)
  (now : datetime) (extra : list MarketSignal) :
  Forall (fun s => token s <> tok) extra ->
  recent_signals (set_market_signals (market_signals self ++ extra) self)
    tok now
  = recent_signals self tok now.
Proof.
  intros Hextra. unfold recent_signals. cbn [market_signals set_market_signals].
  rewrite List.filter_app.
  assert (Hnone : List.filter
                    (fun signal =>
                       String.eqb (token signal) tok
                       && (now - timedelta_hours 1 <? timestamp signal))
                    extra = []).
  { induction Hextra as [|s extra Hs _ IH]; [reflexivity|].
    simpl. destruct (String.eqb_spec (token s) tok); [contradiction|].
    exact IH. }
  rewrite Hnone. apply List.app_nil_r.
Qed.

Lemma composite_other_tokens (self : RealTimeAnalyzer) (tok : string)
  (now : datetime) (extra : list MarketSignal) :
  Forall (fun s => token s <> tok) extra ->
  _generate_composite_signal
    (set_market_signals (market_signals self ++ extra) self) tok now
  = _generate_composite_signal self tok now.
Proof.
  intros Hextra. unfold _generate_composite_signal.
  rewrite recent_signals_other_tokens by exact Hextra. reflexivity.
Qed.

Lemma composite_token (self : RealTimeAnalyzer) (tok : string)
  (now : datetime) (sig : MarketSignal) :
  _generate_composite_signal self tok now = Some sig -> token sig = tok.
Proof.
  intros Hsig.
  destruct (composite_signal_inv _ _ _ _ Hsig)
    as (net & score & _ & _ & _ & _ & _ & Htok & _).
  exact Htok.
Qed.

Lemma fusion_loop (now : datetime) (self : RealTimeAnalyzer)
  (tokens : list string) (extra : list MarketSignal) :
  List.NoDup tokens ->
  Forall (fun s => ~ In (token s) tokens) extra ->
  fold_left (fun self tok => fuse self tok now) tokens
    (set_market_signals (market_signals self ++ extra) self)
  = set_market_signals
      (market_signals self ++ extra
       ++ omap (fun tok => _generate_composite_signal self tok now) tokens)
      self.
Proof.
  intros Hnodup. revert extra.
  induction Hnodup as [|tok tokens Hnotin _ IH]; intros extra Hextra.
  - simpl. rewrite List.app_nil_r. reflexivity.
  - cbn [fold_left omap list_omap].
    assert (Hsame : _generate_composite_signal
                      (set_market_signals (market_signals self ++ extra) self)
                      tok now
                    = _generate_composite_signal self tok now).
    { apply composite_other_tokens.
      eapply List.Forall_impl; [|exact Hextra].
      intros s Hs Heq. apply Hs. left. symmetry. exact Heq. }
    unfold fuse at 2. rewrite Hsame.
    destruct (_generate_composite_signal self tok now) as [sig|] eqn:Hsig.
    + cbn [market_signals set_market_signals].
      change (set_market_signals ((market_signals self ++ extra) ++ [sig])
                (set_market_signals (market_signals self ++ extra) self))
        with (set_market_signals ((market_signals self ++ extra) ++ [sig]) self).
      rewrite <- List.app_assoc. rewrite IH.
      * rewrite <- List.app_assoc. reflexivity.
      * apply List.Forall_app. split.
        -- eapply List.Forall_impl; [|exact Hextra].
           intros s Hs Hin. apply Hs. right. exact Hin.
        -- constructor; [|constructor].
           rewrite (composite_token _ _ _ _ Hsig). exact Hnotin.
    + apply IH.
      eapply List.Forall_impl; [|exact Hextra].
      intros s Hs Hin. apply Hs. right. exact Hin.
Qed.

Lemma SUPPORTED_TOKENS_NoDup : List.NoDup SUPPORTED_TOKENS.
Proof.
  unfold SUPPORTED_TOKENS.
  repeat (constructor; [simpl; intuition discriminate|]). constructor.
Qed.

(** A fusion cycle appends, in the order of the supported tokens, the
    composite signal of every token that has one, each computed as if on
    the store of the start of the cycle: the composite written for one
    token does not enter the fusion of the tokens that follow.  Signals
    already in the store and the two caches are left as they were. *)
Theorem fusion_cycle_per_token (now : datetime) (self : RealTimeAnalyzer) :
  market_signals (_market_signal_generator now self)
  = market_signals self
    ++ omap (fun tok => _generate_composite_signal self tok now)
         SUPPORTED_TOKENS
  /\ price_data_cache (_market_signal_generator now self)
     = price_data_cache self
  /\ sentiment_cache (_market_signal_generator now self)
     = sentiment_cache self.
Proof.
  unfold _market_signal_generator.
  assert (Hstart : self = set_market_signals (market_signals self ++ []) self).
  { destruct self. unfold set_market_signals. simpl.
    rewrite List.app_nil_r. reflexivity. }
  rewrite Hstart at 1 3 5.
  rewrite (fusion_loop now self SUPPORTED_TOKENS [] SUPPORTED_TOKENS_NoDup)
    by constructor.
  repeat split.
Qed.

(** ** The keys of the sentiment cache *)

Lemma list_ascii_of_append (a b : string) :
  list_ascii_of_string (a +:+ b)
  = list_ascii_of_string a ++ list_ascii_of_string b.
Proof.
  induction a as [|c a IH]; [reflexivity|]. simpl. rewrite IH. reflexivity.
Qed.

Lemma list_ascii_of_string_inj (a b : string) :
  list_ascii_of_string a = list_ascii_of_string b -> a = b.
Proof.
  intros H. rewrite <- (string_of_list_ascii_of_string a).
  rewrite <- (string_of_list_ascii_of_string b). rewrite H. reflexivity.
Qed.

Lemma key_suffix_inj (a b suffix : string) :
  a +:+ suffix = b +:+ suffix -> a = b.
Proof.
  intros H. apply list_ascii_of_string_inj.
  apply (f_equal list_ascii_of_string) in H.
  rewrite !list_ascii_of_append in H.
  apply List.app_inv_tail in H. exact H.
Qed.

Lemma news_key_not_social (a b : string) : a +:+ "_news" <> b +:+ "_social".
Proof.
  intros H. apply (f_equal list_ascii_of_string) in H.
  rewrite !list_ascii_of_append in H.
  apply (f_equal (@List.rev ascii)) in H.
  rewrite !List.rev_app_distr in H. simpl in H. discriminate.
Qed.

Lemma composite_same_caches (self self' : RealTimeAnalyzer) (tok : string)
  (now : datetime) :
  market_signals self' = market_signals self ->
  sentiment_cache self' !! (tok +:+ "_news")
  = sentiment_cache self !! (tok +:+ "_news") ->
  sentiment_cache self' !! (tok +:+ "_social")
  = sentiment_cache self !! (tok +:+ "_social") ->
  _generate_composite_signal self' tok now
  = _generate_composite_signal self tok now.
Proof.
  intros Hstore Hnews Hsocial.
  unfold _generate_composite_signal, recent_signals.
  rewrite Hstore, Hnews, Hsocial. reflexivity.
Qed.

(** The two sentiment collectors never overwrite each other's readings: a
    news reading stored for a token is read back under that token's news
    key, leaves the token's social reading alone, and does not change the
    composite signal of any other token; and the same holds with the roles
    of news and social exchanged. *)
Theorem sentiment_readings_isolated (self : RealTimeAnalyzer)
  (tok other : string) (news social : SentimentData Q) (now : datetime) :
  other <> tok ->
  (sentiment_cache (collect_news self tok (Some news)) !! (tok +:+ "_news")
   = Some news
   /\ sentiment_cache (collect_news self tok (Some news)) !! (tok +:+ "_social")
      = sentiment_cache self !! (tok +:+ "_social")
   /\ _generate_composite_signal (collect_news self tok (Some news)) other now
      = _generate_composite_signal self other now)
  /\ (sentiment_cache (collect_social self tok social) !! (tok +:+ "_social")
      = Some social
      /\ sentiment_cache (collect_social self tok social) !! (tok +:+ "_news")
         = sentiment_cache self !! (tok +:+ "_news")
      /\ _generate_composite_signal (collect_social self tok social) other now
         = _generate_composite_signal self other now).
Proof.
  intros Hne.
  assert (Hkey : forall suffix, tok +:+ suffix <> other +:+ suffix).
  { intros suffix H. apply key_suffix_inj in H. congruence. }
  unfold collect_news, collect_social, set_sentiment.
  cbn [sentiment_cache].
  split; (split; [apply lookup_insert_eq|]); split.
  - apply lookup_insert_ne. apply news_key_not_social.
  - apply composite_same_caches; cbn [market_signals sentiment_cache];
      [reflexivity | apply lookup_insert_ne, Hkey
       | apply lookup_insert_ne, news_key_not_social].
  - apply lookup_insert_ne. intros H. symmetry in H.
    exact (news_key_not_social _ _ H).
  - apply composite_same_caches; cbn [market_signals sentiment_cache];
      [reflexivity
       | apply lookup_insert_ne; intros H; symmetry in H;
         exact (news_key_not_social _ _ H)
       | apply lookup_insert_ne, Hkey].
Qed.

Lemma sentiment_readings_isolated_witness :
  sentiment_cache (collect_news after_price "ETH" (Some good_news))
    !! "ETH_news"%string = Some good_news
  /\ _generate_composite_signal (collect_news after_price "ETH" (Some good_news))
       "BTC" (minutes 5)
     = _generate_composite_signal after_price "BTC" (minutes 5).
Proof.
  destruct (sentiment_readings_isolated after_price "ETH" "BTC" good_news
              calm_crowd (minutes 5)) as [(Hread & _ & Hother) _].
  - discriminate.
  - split; [exact Hread | exact Hother].
Defined.

(** ** Market analysis *)

Lemma latest_of_spec (rest : list MarketSignal) (best : MarketSignal) :
  In (latest_of best rest) (best :: rest)
  /\ forall s, In s (best :: rest) ->
       timestamp s <= timestamp (latest_of best rest).
Proof.
  revert best. induction rest as [|x rest IH]; intros best.
  - simpl. split; [tauto|]. intros s [<-|[]]. lia.
  - cbn [latest_of].
    destruct (IH (if timestamp best <? timestamp x then x else best))
      as [Hin Hmax].
    split.
    + destruct Hin as [Heq|Hin].
      * destruct (timestamp best <? timestamp x); rewrite <- Heq; simpl; tauto.
      * right. right. exact Hin.
    + intros s Hs.
      assert (Hfirst := Hmax _ (or_introl eq_refl)).
      destruct Hs as [Hs|[Hs|Hs]]; [subst s|subst s|].
      * destruct (Z.ltb_spec (timestamp best) (timestamp x)); lia.
      * destruct (Z.ltb_spec (timestamp best) (timestamp x)); lia.
      * apply Hmax. right. exact Hs.
Qed.

Lemma visible_composite_filter (self : RealTimeAnalyzer) (tok : string)
  (now : datetime) (s : MarketSignal) :
  In s
    (List.filter (fun s => String.eqb (source s) "composite")
       (List.filter
          (fun signal =>
             String.eqb (token signal) tok
             && (now - timedelta_hours 6 <? timestamp signal))
          (market_signals self)))
  <-> In s (market_signals self) /\ visible_composite tok now s.
Proof.
  unfold visible_composite.
  rewrite !List.filter_In, andb_true_iff, !String.eqb_eq, Z.ltb_lt. tauto.
Qed.

(** The overall signal of a token is the type of its latest composite
    signal among those stamped within the last six hours; without such a
    signal it is neutral. *)
Theorem overall_signal_is_latest_composite
  (ti : DataFrame -> DataFrame) (history : string -> option DataFrame)
  (self : RealTimeAnalyzer) (tok : string)
  (include_sentiment include_technical : bool) (now : datetime) :
  let overall :=
    ta_overall_signal
      (token_analysis ti history self tok include_sentiment include_technical
         now) in
  (overall = neutral
   /\ forall s, In s (market_signals self) -> ~ visible_composite tok now s)
  \/ (exists c,
        In c (market_signals self) /\ visible_composite tok now c
        /\ overall = signal_type c
        /\ forall s, In s (market_signals self) ->
             visible_composite tok now s -> timestamp s <= timestamp c).
Proof.
  cbv zeta. unfold token_analysis. cbn [ta_overall_signal].
  pose proof (visible_composite_filter self tok now) as Hvis.
  destruct (List.filter (fun s => String.eqb (source s) "composite") _)
    as [|first rest].
  - left. split; [reflexivity|].
    intros s Hin Hs. apply (proj2 (Hvis s)). auto.
  - right. destruct (latest_of_spec rest first) as [Hin Hmax].
    exists (latest_of first rest).
    destruct (proj1 (Hvis _) Hin) as [Hstore Hc].
    repeat split; try assumption; try apply Hc.
    intros s Hs Hvs. apply Hmax. apply Hvis. auto.
Qed.

Lemma count_two_types (l : list MarketSignal) :
  (List.length
     (List.filter (fun s => SignalType_eqb (signal_type s) bullish) l)
   + List.length
       (List.filter (fun s => SignalType_eqb (signal_type s) bearish) l)
   <= List.length l)%nat.
Proof.
  induction l as [|s l IH]; simpl; [lia|].
  destruct (signal_type s); simpl; lia.
Qed.

(** The market overview never counts more bullish and bearish signals than
    there are signals; its sentiment is bullish exactly when the bullish
    signals outnumber the bearish ones and bearish in the opposite case;
    its signal strength is between -1 and 1. *)
Theorem market_overview_consistent
  (ti : DataFrame -> DataFrame) (turn : nat -> Turn) (tokens : list string)
  (include_sentiment include_technical : bool) :
  let overview :=
    snd (analyze_market ti turn tokens include_sentiment include_technical) in
  (mo_bullish_signals overview + mo_bearish_signals overview
   <= total_signals overview)%nat
  /\ (market_sentiment overview = bullish
      <-> (mo_bearish_signals overview < mo_bullish_signals overview)%nat)
  /\ (market_sentiment overview = bearish
      <-> (mo_bullish_signals overview < mo_bearish_signals overview)%nat)
  /\ (- (1) <= mo_signal_strength overview)%Q
  /\ (mo_signal_strength overview <= 1)%Q.
Proof.
  cbv zeta. unfold analyze_market.
  cbn [snd total_signals mo_bullish_signals mo_bearish_signals
       market_sentiment mo_signal_strength].
  set (all_signals := List.flat_map _ _).
  pose proof (count_two_types all_signals) as Hcount.
  set (b := List.length (List.filter _ all_signals)) in *.
  set (r := List.length
              (List.filter (fun s => SignalType_eqb (signal_type s) bearish)
                 all_signals)) in *.
  set (n := List.length all_signals) in *.
  split; [exact Hcount|].
  split; [|split].
  - destruct (Nat.ltb_spec r b); [tauto|].
    destruct (Nat.ltb_spec b r); split; (discriminate || lia).
  - destruct (Nat.ltb_spec r b); [split; (discriminate || lia)|].
    destruct (Nat.ltb_spec b r); [tauto|]. split; (discriminate || lia).
  - set (T := inject_Z (Z.of_nat (Nat.max 1 n))).
    set (N := inject_Z (Z.of_nat b - Z.of_nat r)).
    assert (HT : (0 < T)%Q) by (unfold T, Qlt, inject_Z; simpl; lia).
    assert (HN : (N == N / T * T)%Q) by (field; lra).
    assert (Hlo : (- T <= N)%Q) by (unfold T, N, Qle, inject_Z; simpl; lia).
    assert (Hhi : (N <= T)%Q) by (unfold T, N, Qle, inject_Z; simpl; lia).
    set (q := (N / T)%Q) in *. split; nra.
Qed.

Lemma existsb_eqb_In (tok : string) (keys : list string) :
  List.existsb (String.eqb tok) keys = true <-> In tok keys.
Proof.
  rewrite List.existsb_exists. split.
  - intros (k & Hin & Heq). apply String.eqb_eq in Heq. subst. exact Hin.
  - intros Hin. exists tok. split; [exact Hin | apply String.eqb_refl].
Qed.

Lemma dict_set_keys {V} (key : string) (value : V) (d : list (string * V)) :
  List.map fst (dict_set key value d)
  = if List.existsb (String.eqb key) (List.map fst d) then List.map fst d
    else List.map fst d ++ [key].
Proof.
  induction d as [|[k v] d IH]; [reflexivity|].
  cbn [dict_set List.map List.existsb fst].
  rewrite (String.eqb_sym key k).
  destruct (String.eqb k key); [reflexivity|].
  cbn [orb List.map fst]. rewrite IH.
  destruct (List.existsb (String.eqb key) (List.map fst d)); reflexivity.
Qed.

Lemma dict_get_set_same {V} (key : string) (value : V)
  (d : list (string * V)) :
  dict_get key (dict_set key value d) = Some value.
Proof.
  induction d as [|[k v] d IH]; cbn [dict_set dict_get].
  - rewrite String.eqb_refl. reflexivity.
  - destruct (String.eqb k key) eqn:E; cbn [dict_get]; rewrite E;
      [reflexivity | exact IH].
Qed.

Lemma dict_get_set_other {V} (key other : string) (value : V)
  (d : list (string * V)) :
  other <> key -> dict_get other (dict_set key value d) = dict_get other d.
Proof.
  intros Hne. induction d as [|[k v] d IH]; cbn [dict_set dict_get].
  - destruct (String.eqb_spec key other); [congruence | reflexivity].
  - destruct (String.eqb_spec k key) as [->|Hk]; cbn [dict_get].
    + destruct (String.eqb_spec key other); [congruence | reflexivity].
    + rewrite IH. reflexivity.
Qed.

Lemma analysis_tokens_keys (ti : DataFrame -> DataFrame) (turn : nat -> Turn)
  (include_sentiment include_technical : bool) (tokens : list string)
  (k : nat) (analysis : list (string * TokenAnalysis)) :
  List.map fst
    (analysis_tokens ti turn include_sentiment include_technical k tokens
       analysis)
  = first_occurrences (List.map fst analysis) tokens.
Proof.
  revert k analysis.
  induction tokens as [|tok tokens IH]; intros k analysis; [reflexivity|].
  cbn [analysis_tokens first_occurrences]. rewrite IH, dict_set_keys.
  reflexivity.
Qed.

Lemma analysis_tokens_untouched (ti : DataFrame -> DataFrame)
  (turn : nat -> Turn) (include_sentiment include_technical : bool)
  (tokens : list string) (k : nat) (analysis : list (string * TokenAnalysis))
  (tok : string) :
  ~ In tok tokens ->
  dict_get tok
    (analysis_tokens ti turn include_sentiment include_technical k tokens
       analysis)
  = dict_get tok analysis.
Proof.
  revert k analysis.
  induction tokens as [|t tokens IH]; intros k analysis Hnot; [reflexivity|].
  cbn [analysis_tokens]. rewrite IH by (intros H; apply Hnot; right; exact H).
  apply dict_get_set_other. intros ->. apply Hnot. left. reflexivity.
Qed.

Lemma analysis_tokens_last (ti : DataFrame -> DataFrame) (turn : nat -> Turn)
  (include_sentiment include_technical : bool) (tokens : list string)
  (k : nat) (analysis : list (string * TokenAnalysis)) (j : nat)
  (tok : string) :
  List.nth_error tokens j = Some tok ->
  (forall i, (j < i)%nat -> List.nth_error tokens i <> Some tok) ->
  dict_get tok
    (analysis_tokens ti turn include_sentiment include_technical k tokens
       analysis)
  = Some (turn_analysis ti turn include_sentiment include_technical (k + j)
            tok).
Proof.
  revert k analysis j.
  induction tokens as [|t tokens IH]; intros k analysis j Hj Hlast.
  - destruct j; discriminate.
  - cbn [analysis_tokens]. destruct j as [|j].
    + injection Hj as ->.
      rewrite analysis_tokens_untouched.
      * rewrite Nat.add_0_r. apply dict_get_set_same.
      * intros Hin. apply List.In_nth_error in Hin. destruct Hin as [i Hi].
        apply (Hlast (S i)); [lia | exact Hi].
    + rewrite (IH (S k) _ j Hj).
      * rewrite Nat.add_succ_r. reflexivity.
      * intros i Hi. apply (Hlast (S i)). lia.
Qed.

Lemma first_occurrences_spec (tokens seen : list string) :
  List.NoDup seen ->
  List.NoDup (first_occurrences seen tokens)
  /\ forall tok, In tok (first_occurrences seen tokens)
                 <-> In tok seen \/ In tok tokens.
Proof.
  revert seen. induction tokens as [|t tokens IH]; intros seen Hnodup.
  - simpl. split; [exact Hnodup | tauto].
  - cbn [first_occurrences].
    destruct (List.existsb (String.eqb t) seen) eqn:E.
    + apply existsb_eqb_In in E.
      destruct (IH seen Hnodup) as [Hnd Hin]. split; [exact Hnd|].
      intros tok. rewrite Hin. simpl. split; [tauto|].
      intros [H|[<-|H]]; tauto.
    + assert (Hnot : ~ In t seen).
      { intros H. apply existsb_eqb_In in H. congruence. }
      destruct (IH (seen ++ [t])) as [Hnd Hin].
      { apply List.NoDup_app; [exact Hnodup | repeat constructor; intros [] |].
        intros x Hx [<-|[]]. contradiction. }
      split; [exact Hnd|].
      intros tok. rewrite Hin, List.in_app_iff. simpl. tauto.
Qed.

(** [analyze_market] keeps one entry per requested token, in the order of
    first mention.  The entry of a token that is listed several times is
    the analysis of its last mention, taken on the analyzer state, the
    clock reading and the price history of that turn of the loop: the
    analyses of the earlier mentions are overwritten. *)
Theorem analyze_market_repeated_tokens
  (ti : DataFrame -> DataFrame) (turn : nat -> Turn) (tokens : list string)
  (include_sentiment include_technical : bool) :
  let entries :=
    fst (analyze_market ti turn tokens include_sentiment include_technical) in
  List.map fst entries = first_occurrences [] tokens
  /\ List.NoDup (List.map fst entries)
  /\ (forall tok, In tok (List.map fst entries) <-> In tok tokens)
  /\ (forall k tok,
        List.nth_error tokens k = Some tok ->
        (forall j, (k < j)%nat -> List.nth_error tokens j <> Some tok) ->
        dict_get tok entries
        = Some (turn_analysis ti turn include_sentiment include_technical k
                  tok)).
Proof.
  cbv zeta. unfold analyze_market. cbn [fst].
  rewrite analysis_tokens_keys. cbn [List.map].
  destruct (first_occurrences_spec tokens [] (List.NoDup_nil _))
    as [Hnodup Hin].
  split; [reflexivity|]. split; [exact Hnodup|].
  split; [intros tok; rewrite Hin; simpl; tauto|].
  intros k tok Hk Hlast.
  rewrite (analysis_tokens_last ti turn include_sentiment include_technical
             tokens 0 [] k tok Hk Hlast).
  reflexivity.
Qed.

Lemma analyze_market_repeated_tokens_witness :
  let entries :=
    fst (analyze_market rsi_only two_turns ["ETH"; "ETH"]%string true true) in
  List.map fst entries = ["ETH"%string]
  /\ option_map ta_signals (dict_get "ETH" entries)
     = Some (market_signals after_price).
Proof.
  intros entries.
  destruct (analyze_market_repeated_tokens rsi_only two_turns
              ["ETH"; "ETH"]%string true true)
    as (Hkeys & _ & _ & Hlast).
  split; [exact Hkeys|].
  change (fst (analyze_market rsi_only two_turns ["ETH"; "ETH"]%string true
                 true))
    with entries in Hlast.
  rewrite (Hlast 1%nat "ETH"%string eq_refl).
  - vm_compute. reflexivity.
  - intros j Hj. destruct j as [|[|[|j]]]; try lia; discriminate.
Defined.
